(** * querynator: the CGI client (query_api/cgi/cgi_api.py)

    A shallow embedding of the submit / poll / download pipeline of
    [cgi_api.py] and the properties its specification states about it.

    The Python functions become functions in a small monad [M] that threads
    the world the code acts on (the file system and the chronological list
    of observable events: HTTP requests, sleeps, console and logger output)
    and that can raise.  What the code cannot decide itself (the replies of
    the remote service, failures of the operating system, the date, the
    pandas and zip decoders applied to raw bytes) is read from an
    environment [env]. *)

From Stdlib Require Import ZArith Lia Ascii.
From stdpp Require Import base gmap strings list fin_maps.

Set Warnings "-register-all".
Local Open Scope Z_scope.

(** ** Python values and exceptions *)

(** The exception classes the code can meet.  All of them derive from
    Python's [Exception]. *)
Inductive exn :=
  | HTTPError (status : Z)          (* requests.exceptions.HTTPError *)
  | ConnectionError                 (* requests.exceptions.ConnectionError *)
  | Timeout                         (* requests.exceptions.Timeout *)
  | JSONDecodeError                 (* requests.exceptions.JSONDecodeError *)
  | KeyError (key : string)
  | TypeError
  | IndexError
  | FileNotFoundError (path : string)
  | PermissionError (path : string)
  | OSError
  | BadZipFile                      (* zipfile.BadZipFile *)
  | ParserError.                    (* pandas.errors.ParserError *)

(** What travels up the call stack: an [Exception] instance, or
    [SystemExit], which derives from [BaseException] only and is therefore
    not matched by [except Exception]. *)
Inductive raised :=
  | Exc (e : exn)
  | SystemExit (cause : exn).

Definition is_HTTPError (e : exn) : bool :=
  match e with HTTPError _ => true | _ => false end.

(** The result of [r.json()]. *)
Inductive json :=
  | JNull
  | JBool (b : bool)
  | JNum (n : Z)
  | JStr (s : string)
  | JArr (items : list json)
  | JObj (fields : list (string * json)).

(** ** Strings *)

(** [String.concat ""], Python's [''.join]. *)
Definition join (l : list string) : string := foldr String.append "" l.

(** [needle in hay] on Python strings. *)
Fixpoint contains (needle hay : string) : bool :=
  String.prefix needle hay ||
  match hay with
  | EmptyString => false
  | String _ hay' => contains needle hay'
  end.

(** [s[:-n]] for a positive [n]: everything but the last [n] characters,
    the empty string when [s] is not longer than [n]. *)
Definition drop_last (n : nat) (s : string) : string :=
  String.substring 0 (String.length s - n) s.

(** ** The world *)

Inductive cell :=
  | CInt (n : Z)
  | CStr (s : string)
  | CNaN.

Global Instance cell_eq_dec : EqDecision cell.
Proof. solve_decision. Defined.

(** A pandas DataFrame without its index: the column labels and the rows,
    every row holding one cell per column. *)
Record DataFrame := { columns : list string; rows : list (list cell) }.

Definition wf_frame (df : DataFrame) : Prop :=
  Forall (λ r, length r = length (columns df)) (rows df).

(** A file is a tab-separated table (as pandas reads and writes it) or raw
    bytes. *)
Inductive file :=
  | TSV (table : DataFrame)
  | Raw (bytes : string).

Inductive method := GET | POST.

Record request := {
  req_method : method;
  req_url : string;
  req_headers : list (string * string);
  req_params : list (string * string);
  req_data : list (string * string);
  req_files : list (string * file);
  req_timeout : option Z
}.

Record response := {
  status_code : Z;
  body_json : option json;     (* [None]: the body is not JSON *)
  _content : string
}.

Inductive reply :=
  | Answer (r : response)
  | Fails (e : exn).

(** How a request is issued: through the module-level functions
    [requests.get] / [requests.post], or through the [Session] object that
    [status_done] names [http] and mounts the retry adapter on. *)
Inductive client := requests_api | session_http.

Inductive event :=
  | EvInfo (msg : string)                       (* logger.info *)
  | EvPrint (msg : string)                      (* print *)
  | EvSleep (seconds : Z)                       (* time.sleep *)
  | EvMountRetry (total : Z) (status_forcelist : list Z)
                 (allowed_methods : list string) (prefixes : list string)
  | EvRequest (via : client) (rq : request).

Record state := {
  fs : gmap string file;
  events : list event;
  nreq : nat                  (* HTTP requests issued so far *)
}.

Record env := {
  net : nat → request → reply;          (* reply to the n-th request *)
  today : string;                       (* str(date.today()) *)
  open_w : string → option exn;         (* opening a path for writing fails *)
  write_w : string → string → option exn; (* writing data to a path fails *)
  parse_csv : string → exn + DataFrame; (* pandas' parser on raw bytes *)
  unzip : string → option (list (string * string))  (* zip decoder *)
}.

(** ** The monad *)

Inductive outcome (A : Type) :=
  | Ret (a : A)
  | Raise (r : raised)
  | NoFuel.
Arguments Ret {A} a.
Arguments Raise {A} r.
Arguments NoFuel {A}.

Definition M (A : Type) : Type := env → state → outcome A * state.

Global Instance M_ret : MRet M := λ A a _ s, (Ret a, s).
Global Instance M_bind : MBind M := λ A B f m e s,
  match m e s with
  | (Ret a, s') => f a e s'
  | (Raise r, s') => (Raise r, s')
  | (NoFuel, s') => (NoFuel, s')
  end.

Definition raise {A} (e : exn) : M A := λ _ s, (Raise (Exc e), s).
Definition sys_exit {A} (e : exn) : M A := λ _ s, (Raise (SystemExit e), s).

Definition emit (ev : event) : M unit := λ _ s,
  (Ret (), {| fs := fs s; events := events s ++ [ev]; nreq := nreq s |}).

(** [try: body / except <class> as err: handler err]: [handler] answers
    [None] on an exception its [except] clause does not match. *)
Definition try_except {A} (body : M A) (handler : exn → option (M A)) : M A :=
  λ e s,
    match body e s with
    | (Raise (Exc x), s') =>
        match handler x with
        | Some h => h e s'
        | None => (Raise (Exc x), s')
        end
    | r => r
    end.

(** ** hg_assembly *)

Definition hg_assembly (genome : string) : string :=
  let genome := if String.eqb genome "GRCh37" then "hg19" else genome in
  let genome := if String.eqb genome "GRCh38" then "hg38" else genome in
  genome.

(** ** Primitive operations on the world *)

Definition no_fuel {A} : M A := λ _ s, (NoFuel, s).

(** One HTTP exchange: the request is recorded, the service's reply read
    from the environment. *)
Definition http_request (via : client) (rq : request) : M response := λ e s,
  let s' := {| fs := fs s; events := events s ++ [EvRequest via rq];
               nreq := S (nreq s) |} in
  match net e (nreq s) rq with
  | Answer r => (Ret r, s')
  | Fails x => (Raise (Exc x), s')
  end.

(** [requests.get(url, headers=headers, params=params, timeout=timeout)] *)
Definition get_request (url : string) (headers params : list (string * string))
    (timeout : option Z) : request :=
  {| req_method := GET; req_url := url; req_headers := headers;
     req_params := params; req_data := []; req_files := [];
     req_timeout := timeout |}.

Definition requests_get (url : string) (headers params : list (string * string))
    (timeout : option Z) : M response :=
  http_request requests_api (get_request url headers params timeout).

(** [requests.post(url, headers=headers, files=files, data=data)] *)
Definition requests_post (url : string) (headers : list (string * string))
    (files : list (string * file)) (data : list (string * string)) : M response :=
  http_request requests_api
    {| req_method := POST; req_url := url; req_headers := headers;
       req_params := []; req_data := data; req_files := files;
       req_timeout := None |}.

(** [r.raise_for_status()]: 4xx and 5xx raise [HTTPError]. *)
Definition is_error_status (status : Z) : bool :=
  (400 <=? status) && (status <? 600).

Definition raise_for_status (r : response) : M unit :=
  if is_error_status (status_code r) then raise (HTTPError (status_code r))
  else mret ().

(** [r.json()] *)
Definition r_json (r : response) : M json :=
  match body_json r with
  | Some j => mret j
  | None => raise JSONDecodeError
  end.

Fixpoint assoc (key : string) (fields : list (string * json)) : option json :=
  match fields with
  | [] => None
  | (k, v) :: fields' => if String.eqb k key then Some v else assoc key fields'
  end.

(** [j[key]] for a string [key]: only a dict can be indexed by a string. *)
Definition getitem (j : json) (key : string) : M json :=
  match j with
  | JObj fields =>
      match assoc key fields with
      | Some v => mret v
      | None => raise (KeyError key)
      end
  | _ => raise TypeError
  end.

Fixpoint strs_of (items : list json) : option (list string) :=
  match items with
  | [] => Some []
  | JStr s :: items' =>
      match strs_of items' with
      | Some l => Some (s :: l)
      | None => None
      end
  | _ => None
  end.

(** [''.join(j)]: a list of strings is concatenated; a string is iterated
    character by character, a dict by its keys; anything else, and a list
    with an item that is not a string, is a [TypeError]. *)
Definition join_json (j : json) : M string :=
  match j with
  | JArr items =>
      match strs_of items with
      | Some l => mret (join l)
      | None => raise TypeError
      end
  | JStr s => mret s
  | JObj fields => mret (join (fields.*1))
  | _ => raise TypeError
  end.

(** [prefix + j]: only a [str] can be appended to a [str]. *)
Definition str_add (prefix : string) (j : json) : M string :=
  match j with
  | JStr s => mret (prefix +:+ s)
  | _ => raise TypeError
  end.

(** [open(path, 'rb')] *)
Definition open_rb (path : string) : M file := λ _ s,
  match fs s !! path with
  | Some f => (Ret f, s)
  | None => (Raise (Exc (FileNotFoundError path)), s)
  end.

Definition set_file (path : string) (f : file) (s : state) : state :=
  {| fs := <[path := f]> (fs s); events := events s; nreq := nreq s |}.

(** [open(path, 'w')] and [open(path, 'wb')]: the file is created or
    truncated. *)
Definition open_write (path : string) : M unit := λ e s,
  match open_w e path with
  | Some x => (Raise (Exc x), s)
  | None => (Ret (), set_file path (Raw "") s)
  end.

Definition raw_bytes (f : option file) : string :=
  match f with
  | Some (Raw b) => b
  | _ => ""
  end.

(** [fd.write(data)] on the file opened at [path]. *)
Definition write (path data : string) : M unit := λ e s,
  match write_w e path data with
  | Some x => (Raise (Exc x), s)
  | None => (Ret (), set_file path (Raw (raw_bytes (fs s !! path) +:+ data)) s)
  end.

(** [str(date.today())] *)
Definition date_today : M string := λ e s, (Ret (today e), s).

(** The one-character string that Python writes as a backslash followed
    by n. *)
Definition newline : string := String "010"%char "".

(** ** pandas *)

(** [pd.read_csv(path, sep="\t")]: a table file is read as the table it
    holds, raw bytes go through pandas' parser. *)
Definition read_csv (path : string) : M DataFrame := λ e s,
  match fs s !! path with
  | None => (Raise (Exc (FileNotFoundError path)), s)
  | Some (TSV t) => (Ret t, s)
  | Some (Raw b) =>
      match parse_csv e b with
      | inl x => (Raise (Exc x), s)
      | inr t => (Ret t, s)
      end
  end.

(** [df.iloc[:, :n]]: the first [n] columns (all of them when there are
    fewer). *)
Definition iloc_cols (n : nat) (df : DataFrame) : DataFrame :=
  {| columns := take n (columns df); rows := take n <$> rows df |}.

(** [df.drop_duplicates()] keeps the first occurrence of every row; [seen]
    holds the rows met so far. *)
Fixpoint drop_seen (seen : list (list cell)) (l : list (list cell))
    : list (list cell) :=
  match l with
  | [] => []
  | r :: l' =>
      if bool_decide (r ∈ seen) then drop_seen seen l'
      else r :: drop_seen (r :: seen) l'
  end.

Definition drop_duplicates (df : DataFrame) : DataFrame :=
  {| columns := columns df; rows := drop_seen [] (rows df) |}.

(** [len(df.iloc[:, 0])]: the number of rows; [IndexError] on a frame
    without columns. *)
Definition len_first_column (df : DataFrame) : M nat :=
  match columns df with
  | [] => raise IndexError
  | _ :: _ => mret (length (rows df))
  end.

(** [df[name] = values]: an existing column of that label is overwritten in
    place, otherwise the column is appended on the right. *)
Definition set_cell (name : string) (v : cell) (labels : list string)
    (r : list cell) : list cell :=
  zip_with (λ label x, if String.eqb label name then v else x) labels r.

Definition setitem (name : string) (values : list cell) (df : DataFrame)
    : DataFrame :=
  if bool_decide (name ∈ columns df) then
    {| columns := columns df;
       rows := zip_with (λ r v, set_cell name v (columns df) r) (rows df) values |}
  else
    {| columns := columns df ++ [name];
       rows := zip_with (λ r v, r ++ [v]) (rows df) values |}.

(** [df.to_csv(path, sep="\t", index=False)] *)
Definition to_csv (df : DataFrame) (path : string) : M unit := λ e s,
  match open_w e path with
  | Some x => (Raise (Exc x), s)
  | None => (Ret (), set_file path (TSV df) s)
  end.

(** ** zipfile *)

(** [ZipFile(archive).extractall(dir)] *)
Definition extractall (archive dir : string) : M unit := λ e s,
  match fs s !! archive with
  | None => (Raise (Exc (FileNotFoundError archive)), s)
  | Some (TSV _) => (Raise (Exc BadZipFile), s)
  | Some (Raw b) =>
      match unzip e b with
      | None => (Raise (Exc BadZipFile), s)
      | Some members =>
          (Ret (),
           {| fs := foldl (λ m member, <[dir +:+ "/" +:+ member.1 := Raw member.2]> m)
                          (fs s) members;
              events := events s; nreq := nreq s |})
      end
  end.

(** ** The functions of cgi_api.py *)

Definition prepare_cgi_query_file (input output : string) : M string :=
  cgi_file ← read_csv input;
  let cgi_file := drop_duplicates (iloc_cols 5 cgi_file) in
  n ← len_first_column cgi_file;
  let cgi_file := setitem "SAMPLE" (replicate n (CStr output)) cgi_file in
  to_csv cgi_file (output +:+ ".cgi_input.tsv");;
  let cgi_path := output +:+ ".cgi_input.tsv" in
  mret cgi_path.

(** The caller's cancer-type object; the code reads its [name]. *)
Record cancer_type := { name : string }.

Definition api_v1 : string := "https://www.cancergenomeinterpreter.org/api/v1".

Definition submit_query_cgi (input genome : string) (cancer : cancer_type)
    (headers : list (string * string)) : M string :=
  emit (EvInfo "Querying REST API");;
  let genome := hg_assembly genome in
  let payload := [("cancer_type", name cancer); ("title", "CGI_query");
                  ("reference", genome)] in
  try_except
    (mutations ← open_rb input;
     r ← requests_post api_v1 headers [("mutations", mutations)] payload;
     raise_for_status r;;
     job_id ← r_json r;
     url ← str_add (api_v1 +:+ "/") job_id;
     mret url)
    (λ err, if is_HTTPError err then Some (sys_exit err) else None).

Definition marker : string := "Analysis done".

(** The loop condition ['Analysis done' not in ''.join(log['logs'])]. *)
Definition not_done (log : json) : M bool :=
  logs ← getitem log "logs";
  joined ← join_json logs;
  mret (negb (contains marker joined)).

Fixpoint poll_loop (fuel : nat) (url : string)
    (headers payload : list (string * string)) (counter : Z) (log : json)
    : M unit :=
  match fuel with
  | O => no_fuel
  | S fuel' =>
      again ← not_done log;
      if again : bool then
        if counter =? 5 then emit (EvPrint "Query took too looong :-(")
        else
          emit (EvSleep 60);;
          next ← try_except
            (r ← requests_get url headers payload (Some 5);
             raise_for_status r;;
             let counter := counter + 1 in
             log ← r_json r;
             mret (counter, log))
            (λ err, if is_HTTPError err then Some (sys_exit err) else None);
          poll_loop fuel' url headers payload next.1 next.2
      else mret ()
  end.

Definition status_done_fuel (fuel : nat) (url : string)
    (headers : list (string * string)) : M bool :=
  let counter := 0 in
  let payload := [("action", "logs")] in
  emit (EvMountRetry 3 [429; 500; 502; 503; 504] ["HEAD"; "GET"; "OPTIONS"]
                     ["https://"; "http://"]);;
  r ← requests_get url headers payload (Some 5);
  log ← r_json r;
  poll_loop fuel url headers payload counter log;;
  mret true.

(** Six turns of the loop are all it can take (see [status_done_fuel_enough]). *)
Definition status_done : string → list (string * string) → M bool :=
  status_done_fuel 6.

Definition download_cgi (url : string) (headers : list (string * string))
    (output : string) : M unit :=
  try_except
    (let payload := [("action", "download")] in
     r ← requests_get url headers payload None;
     open_write (output +:+ ".cgi_results.zip");;
     write (output +:+ ".cgi_results.zip") (_content r))
    (λ _, Some (emit (EvPrint
       "Ooops, sth went wrong with the download. Sorry for the inconvenience."))).

Definition add_cgi_metadata (url output : string) : M unit :=
  extractall (output +:+ ".cgi_results.zip") (output +:+ ".cgi_results");;
  today ← date_today;
  let f := (output +:+ ".cgi_results") +:+ "/metadata.txt" in
  open_write f;;
  write f ("CGI query date: " +:+ today);;
  write f (newline +:+ "API version: " +:+ drop_last 20 url).

Definition query_cgi (input genome : string) (cancer : cancer_type)
    (headers : list (string * string)) (output : string) : M unit :=
  cgi_file ← prepare_cgi_query_file input output;
  url ← submit_query_cgi cgi_file genome cancer headers;
  done ← status_done url headers;
  emit (EvInfo "CGI Query finished");;
  if done : bool then
    emit (EvInfo "Downloading CGI results");;
    download_cgi url headers output;;
    add_cgi_metadata url output
  else mret ().

(** ** Vocabulary of the statements *)

(** The state after the events [evs], [k] of which are HTTP requests. *)
Definition after (evs : list event) (k : nat) (s : state) : state :=
  {| fs := fs s; events := events s ++ evs; nreq := (nreq s + k)%nat |}.

(** The requests the three network steps build. *)
Definition submit_request (mutations : file) (genome : string)
    (cancer : cancer_type) (headers : list (string * string)) : request :=
  {| req_method := POST; req_url := api_v1; req_headers := headers;
     req_params := [];
     req_data := [("cancer_type", name cancer); ("title", "CGI_query");
                  ("reference", hg_assembly genome)];
     req_files := [("mutations", mutations)]; req_timeout := None |}.

Definition poll_request (url : string) (headers : list (string * string))
    : request :=
  get_request url headers [("action", "logs")] (Some 5).

Definition download_request (url : string) (headers : list (string * string))
    : request :=
  get_request url headers [("action", "download")] None.

Definition mount_retry : event :=
  EvMountRetry 3 [429; 500; 502; 503; 504] ["HEAD"; "GET"; "OPTIONS"]
               ["https://"; "http://"].

Definition too_long : event := EvPrint "Query took too looong :-(".

Definition oops : event :=
  EvPrint "Ooops, sth went wrong with the download. Sorry for the inconvenience.".

(** A parsed log document: a dict whose ["logs"] entry is an array of the
    strings [lines]. *)
Definition log_of (doc : json) (lines : list string) : Prop :=
  ∃ fields, doc = JObj fields ∧ assoc "logs" fields = Some (JArr (JStr <$> lines)).

(** The completion marker occurs in the concatenation of the log lines,
    whatever stands before and after it. *)
Definition marker_in (lines : list string) : Prop :=
  ∃ pre post, join lines = pre +:+ marker +:+ post.

(** A reply to a poll that fetches a log in which the marker does not
    occur. *)
Definition pending (rp : reply) : Prop :=
  ∃ r doc lines,
    rp = Answer r ∧ is_error_status (status_code r) = false ∧
    body_json r = Some doc ∧ log_of doc lines ∧ ¬ marker_in lines.

(** The next thing that happens after [s] is a sleep of 60 seconds and one
    more poll. *)
Definition polls_again (url : string) (headers : list (string * string))
    (s s' : state) : Prop :=
  events s ++ [EvSleep 60; EvRequest requests_api (poll_request url headers)]
    `prefix_of` events s'.

(** What the specification says of one turn of the poller on the fetched
    log [doc] with lines [lines]: it is done exactly when the marker is in
    the log, and polls again otherwise.  (Done: the loop is left at once,
    nothing else happens.) *)
Definition turn_as_specified (url : string) (headers : list (string * string))
    (fuel : nat) (counter : Z) (doc : json) (lines : list string)
    (e : env) (s : state) : Prop :=
  let r := poll_loop (S fuel) url headers [("action", "logs")] counter doc e s in
  (r = (Ret (), s) ↔ marker_in lines) ∧
  (¬ marker_in lines → polls_again url headers s r.2).

(** An event that is a request sent through the retry-mounted session. *)
Definition through_session (ev : event) : bool :=
  match ev with
  | EvRequest session_http _ => true
  | _ => false
  end.

(** The number of rows of [l] that repeat a row met before ([seen] holds the
    rows met so far). *)
Fixpoint duplicates_from (seen : list (list cell)) (l : list (list cell)) : nat :=
  match l with
  | [] => 0
  | r :: l' =>
      ((if bool_decide (r ∈ seen) then 1 else 0) + duplicates_from (r :: seen) l')%nat
  end.

Definition duplicates (l : list (list cell)) : nat := duplicates_from [] l.

(** The upload file the specification describes for the table [t] and the
    sample name [output]: the first five columns and a sample column; the
    rows are the distinct five-cell rows of [t], each once and each followed
    by the sample name, so that N rows with D duplicates leave N - D. *)
Definition prepared_ok (t : DataFrame) (output : string) (out : DataFrame) : Prop :=
  ∃ kept,
    columns out = take 5 (columns t) ++ ["SAMPLE"] ∧
    rows out = (λ r, r ++ [CStr output]) <$> kept ∧
    NoDup kept ∧
    (∀ r, r ∈ kept ↔ r ∈ take 5 <$> rows t) ∧
    (∀ r, r ∈ kept → length r = 5%nat) ∧
    length kept = (length (rows t) - duplicates (take 5 <$> rows t))%nat.

(** [prepare_cgi_query_file] returns the upload path and the file there is
    as described. *)
Definition prepare_writes (e : env) (s : state) (input output : string)
    (t : DataFrame) : Prop :=
  ∃ s' out,
    prepare_cgi_query_file input output e s = (Ret (output +:+ ".cgi_input.tsv"), s') ∧
    fs s' !! (output +:+ ".cgi_input.tsv") = Some (TSV out) ∧
    prepared_ok t output out.

(** The outcome is a missing-file error. *)
Definition missing_file {A} (r : outcome A * state) : Prop :=
  ∃ path, r.1 = Raise (Exc (FileNotFoundError path)).

(** What the specification says of the download step: it returns normally,
    and when it wrote nothing (it left the file system as it was) the
    metadata step fails with a missing-file error. *)
Definition download_as_specified (url : string) (headers : list (string * string))
    (output : string) (e : env) (s : state) : Prop :=
  ∃ s', download_cgi url headers output e s = (Ret (), s') ∧
        (fs s' = fs s → missing_file (add_cgi_metadata url output e s')).

(** ** Scenarios *)

Definition answer (status : Z) (body : option json) (content : string) : reply :=
  Answer {| status_code := status; body_json := body; _content := content |}.

Definition log_reply (lines : list string) : reply :=
  answer 200 (Some (JObj [("logs", JArr (JStr <$> lines))])) "".

(** A service that gives the listed replies in turn and is unreachable
    afterwards; nothing else fails; the archive bytes "PK" hold one file. *)
Definition service (replies : list reply) : env :=
  {| net := λ n _, default (Fails ConnectionError) (replies !! n);
     today := "2023-05-04";
     open_w := λ _, None;
     write_w := λ _ _, None;
     parse_csv := λ _, inl ParserError;
     unzip := λ b, if String.eqb b "PK" then Some [("alterations.tsv", "gene")]
                   else None |}.

Definition brca : cancer_type := {| name := "BRCA" |}.

Definition job : string := "0123456789abcdefghij".

Definition job_reply : reply := answer 200 (Some (JStr job)) "".

(** The table of the specification's end-to-end scenario. *)
Definition variants : DataFrame :=
  {| columns := ["CHROM"; "POS"; "ID"; "REF"; "ALT"];
     rows := [[CStr "chr1"; CInt 100; CStr "rs1"; CStr "A"; CStr "T"];
              [CStr "chr1"; CInt 100; CStr "rs1"; CStr "A"; CStr "T"];
              [CStr "chr2"; CInt 200; CStr "rs2"; CStr "C"; CStr "G"]] |}.

(** A table whose third column already carries the label SAMPLE. *)
Definition labelled : DataFrame :=
  {| columns := ["CHROM"; "POS"; "SAMPLE"; "REF"; "ALT"];
     rows := [[CStr "chr1"; CInt 100; CStr "tumour"; CStr "A"; CStr "T"]] |}.

Definition disk (files : list (string * file)) : state :=
  {| fs := list_to_map files; events := []; nreq := 0 |}.

(** The job never finishes: every poll fetches a log without the marker. *)
Definition slow : env :=
  service (job_reply :: replicate 6 (log_reply ["Annotating variants"])
           ++ [answer 200 None "PK"]).

(** What [prepare_cgi_query_file] makes of [variants] for "sample1". *)
Definition upload : DataFrame :=
  {| columns := ["CHROM"; "POS"; "ID"; "REF"; "ALT"; "SAMPLE"];
     rows := [[CStr "chr1"; CInt 100; CStr "rs1"; CStr "A"; CStr "T"; CStr "sample1"];
              [CStr "chr2"; CInt 200; CStr "rs2"; CStr "C"; CStr "G"; CStr "sample1"]] |}.

(** A log of a job that is still running. *)
Definition waiting : json := JObj [("logs", JArr [JStr "Annotating variants"])].

Definition job_url : string := api_v1 +:+ "/" +:+ job.

(** ** Measures on traces *)

(** A reply to a poll that fetches a log in which the marker occurs. *)
Definition finished (rp : reply) : Prop :=
  ∃ r doc lines,
    rp = Answer r ∧ is_error_status (status_code r) = false ∧
    body_json r = Some doc ∧ log_of doc lines ∧ marker_in lines.

(** The seconds slept and the HTTP requests sent in a list of events. *)
Definition slept (evs : list event) : Z :=
  foldr (λ ev t, match ev with EvSleep n => n + t | _ => t end) 0 evs.

Definition requests_in (evs : list event) : nat :=
  foldr (λ ev n, match ev with EvRequest _ _ => S n | _ => n end) 0%nat evs.

(** The events of the poller: the mount, a poll, a sleep of 60, the
    complaint. *)
Definition poller_event (url : string) (headers : list (string * string))
    (ev : event) : Prop :=
  ev = mount_retry ∨ ev = EvRequest requests_api (poll_request url headers) ∨
  ev = EvSleep 60 ∨ ev = too_long.

(** The job finishes late: the log fetched by the fifth retry is the first
    to hold the marker. *)
Definition late : env :=
  service (replicate 5 (log_reply ["Annotating variants"])
           ++ [log_reply ["Annotating variants"; "Analysis done"]]).

(** The text of the metadata file, and the files of an unpacked archive. *)
Definition metadata_text (e : env) (url : string) : string :=
  "CGI query date: " +:+ today e +:+ newline +:+
  "API version: " +:+ drop_last 20 url.

Definition extracted (dir : string) (members : list (string * string))
    (files : gmap string file) : gmap string file :=
  foldl (λ m member, <[dir +:+ "/" +:+ member.1 := Raw member.2]> m) files members.


(** * Properties *)

(** ** Strings *)

Lemma prefix_app (needle hay : string) :
  String.prefix needle hay = true ↔ ∃ post, hay = needle +:+ post.
Proof.
  revert hay. induction needle as [|a needle IH]; intros hay.
  - split; [intros _; exists hay; reflexivity|].
    intros _. destruct hay; reflexivity.
  - destruct hay as [|b hay]; simpl.
    + split; [discriminate|intros [post H]; discriminate H].
    + destruct (Ascii.ascii_dec a b) as [->|Hne].
      * rewrite IH. split; intros [post H]; exists post.
        -- rewrite H. reflexivity.
        -- injection H as H. exact H.
      * split; [discriminate|].
        intros [post H]. injection H as H1 H2. congruence.
Qed.

(** [needle in hay] holds exactly when [hay] is some text, then [needle],
    then some text. *)
Lemma contains_spec (needle hay : string) :
  contains needle hay = true ↔ ∃ pre post, hay = pre +:+ needle +:+ post.
Proof.
  induction hay as [|c hay IH]; cbn [contains].
  - rewrite orb_false_r, prefix_app. split.
    + intros [post H]. exists "", post. exact H.
    + intros (pre & post & H). destruct pre as [|a pre]; [|discriminate H].
      exists post. exact H.
  - rewrite orb_true_iff, prefix_app, IH. split.
    + intros [[post H]|(pre & post & H)].
      * exists "", post. exact H.
      * exists (String c pre), post. rewrite H. reflexivity.
    + intros (pre & post & H). destruct pre as [|a pre].
      * left. exists post. exact H.
      * right. injection H as _ H. exists pre, post. exact H.
Qed.

Lemma contains_false (needle hay : string) :
  contains needle hay = false ↔ ¬ ∃ pre post, hay = pre +:+ needle +:+ post.
Proof. rewrite <- contains_spec. destruct (contains needle hay); naive_solver. Qed.

Lemma substring_prefix (p t : string) :
  String.substring 0 (String.length p) (p +:+ t) = p.
Proof.
  induction p as [|a p IH]; simpl.
  - destruct t; reflexivity.
  - change (String.append p t) with (p +:+ t). rewrite IH. reflexivity.
Qed.

Lemma length_app_string (p t : string) :
  String.length (p +:+ t) = (String.length p + String.length t)%nat.
Proof. induction p as [|a p IH]; simpl; [reflexivity|]. f_equal. exact IH. Qed.

(** [url[:-n]] removes exactly the [n] trailing characters. *)
Lemma drop_last_app (n : nat) (p t : string) :
  String.length t = n → drop_last n (p +:+ t) = p.
Proof.
  intros <-. unfold drop_last. rewrite length_app_string.
  replace (String.length p + String.length t - String.length t)%nat
    with (String.length p) by lia.
  apply substring_prefix.
Qed.

(** ** C5: genome-build normalisation *)

(** C5. For every input string, [hg_assembly] maps "GRCh37" to "hg19" and
    "GRCh38" to "hg38", and returns any other string unchanged. *)
Theorem hg_assembly_normalizes (genome : string) :
  (genome = "GRCh37" → hg_assembly genome = "hg19") ∧
  (genome = "GRCh38" → hg_assembly genome = "hg38") ∧
  (genome ≠ "GRCh37" → genome ≠ "GRCh38" → hg_assembly genome = genome).
Proof.
  split; [|split].
  - intros ->. reflexivity.
  - intros ->. reflexivity.
  - intros H37 H38. unfold hg_assembly.
    apply String.eqb_neq in H37. rewrite H37.
    apply String.eqb_neq in H38. rewrite H38. reflexivity.
Qed.

Lemma hg_assembly_normalizes_witness :
  hg_assembly "GRCh37" = "hg19" ∧ hg_assembly "GRCh38" = "hg38" ∧
  hg_assembly "hg19" = "hg19".
Proof.
  split; [|split].
  - apply (hg_assembly_normalizes "GRCh37"). reflexivity.
  - apply (hg_assembly_normalizes "GRCh38"). reflexivity.
  - apply (hg_assembly_normalizes "hg19"); discriminate.
Defined.

(** ** The poller *)

Lemma after_after evs1 k1 evs2 k2 s :
  after evs2 k2 (after evs1 k1 s) = after (evs1 ++ evs2) (k1 + k2) s.
Proof. unfold after; cbn. rewrite app_assoc, Nat.add_assoc. reflexivity. Qed.

(** Closing steps for goals about the events a computation adds. *)
Ltac nothing_added :=
  exists []; split; [symmetry; apply app_nil_r|constructor].

Ltac only_added evs H :=
  exists evs; split; [reflexivity|exact H].

Lemma strs_of_strings (lines : list string) : strs_of (JStr <$> lines) = Some lines.
Proof.
  induction lines as [|l lines IH]; [reflexivity|].
  rewrite fmap_cons. cbn [strs_of]. rewrite IH. reflexivity.
Qed.

Section Poller.

Context (url : string) (headers : list (string * string)) (e : env).

(** The loop condition does not touch the world. *)
Lemma not_done_state (log : json) s : (not_done log e s).2 = s.
Proof.
  cbv [not_done getitem join_json mbind M_bind mret M_ret raise].
  destruct log as [| | | |items|fields]; try reflexivity.
  destruct (assoc "logs" fields) as [[| | | |items|fields']|]; try reflexivity.
  destruct (strs_of items); reflexivity.
Qed.

Lemma not_done_log (doc : json) (lines : list string) s :
  log_of doc lines →
  not_done doc e s = (Ret (negb (contains marker (join lines))), s).
Proof.
  intros (fields & -> & Hlogs).
  cbv [not_done getitem join_json mbind M_bind mret M_ret raise].
  rewrite Hlogs, strs_of_strings. reflexivity.
Qed.

(** One turn of the [while] loop. *)
Lemma poll_loop_unfold fuel payload counter doc s :
  poll_loop (S fuel) url headers payload counter doc e s
  = match (not_done doc e s).1 with
    | Ret true =>
        if counter =? 5 then (Ret (), after [too_long] 0 s)
        else
          let rq := get_request url headers payload (Some 5) in
          let s' := after [EvSleep 60; EvRequest requests_api rq] 1 s in
          match net e (nreq s) rq with
          | Fails x => (Raise (if is_HTTPError x then SystemExit x else Exc x), s')
          | Answer r =>
              if is_error_status (status_code r)
              then (Raise (SystemExit (HTTPError (status_code r))), s')
              else match body_json r with
                   | None => (Raise (Exc JSONDecodeError), s')
                   | Some doc' =>
                       poll_loop fuel url headers payload (counter + 1) doc' e s'
                   end
          end
    | Ret false => (Ret (), s)
    | Raise r => (Raise r, s)
    | NoFuel => (NoFuel, s)
    end.
Proof.
  cbn [poll_loop]. unfold mbind at 1, M_bind.
  pose proof (not_done_state doc s) as Hs.
  destruct (not_done doc e s) as [o s0]. cbn in Hs. subst s0. cbn [fst].
  destruct o as [[|]| |]; try reflexivity.
  destruct (counter =? 5).
  { cbn. unfold after. rewrite Nat.add_0_r. reflexivity. }
  unfold mbind, M_bind, emit, try_except, requests_get, http_request,
    raise_for_status, r_json, after.
  cbn [fs events nreq]. rewrite <- app_assoc. cbn [app].
  rewrite Nat.add_1_r.
  destruct (net e (nreq s) _) as [r|x].
  - destruct (is_error_status (status_code r)); [reflexivity|].
    destruct (body_json r); reflexivity.
  - destruct x; reflexivity.
Qed.

(** The three cases of a turn on a fetched log. *)
Lemma poll_loop_done fuel payload counter doc lines s :
  log_of doc lines → contains marker (join lines) = true →
  poll_loop (S fuel) url headers payload counter doc e s = (Ret (), s).
Proof.
  intros Hdoc Hin.
  rewrite poll_loop_unfold, (not_done_log _ _ _ Hdoc), Hin. reflexivity.
Qed.

Lemma poll_loop_limit fuel payload doc lines s :
  log_of doc lines → contains marker (join lines) = false →
  poll_loop (S fuel) url headers payload 5 doc e s
  = (Ret (), after [too_long] 0 s).
Proof.
  intros Hdoc Hin.
  rewrite poll_loop_unfold, (not_done_log _ _ _ Hdoc), Hin. reflexivity.
Qed.

Lemma poll_loop_again fuel counter doc lines s :
  log_of doc lines → contains marker (join lines) = false → counter ≠ 5 →
  poll_loop (S fuel) url headers [("action", "logs")] counter doc e s
  = let s' := after [EvSleep 60; EvRequest requests_api (poll_request url headers)] 1 s in
    match net e (nreq s) (poll_request url headers) with
    | Fails x => (Raise (if is_HTTPError x then SystemExit x else Exc x), s')
    | Answer r =>
        if is_error_status (status_code r)
        then (Raise (SystemExit (HTTPError (status_code r))), s')
        else match body_json r with
             | None => (Raise (Exc JSONDecodeError), s')
             | Some doc' =>
                 poll_loop fuel url headers [("action", "logs")] (counter + 1) doc' e s'
             end
    end.
Proof.
  intros Hdoc Hin Hc.
  rewrite poll_loop_unfold, (not_done_log _ _ _ Hdoc), Hin.
  apply Z.eqb_neq in Hc. cbn [negb fst]. rewrite Hc. reflexivity.
Qed.

(** Everything the loop adds to the trace; none of it is a request sent
    through the session. *)
Lemma poll_loop_trace fuel payload counter doc s :
  ∃ evs, events (poll_loop fuel url headers payload counter doc e s).2
         = events s ++ evs ∧
         Forall (λ ev, through_session ev = false) evs.
Proof.
  revert counter doc s. induction fuel as [|fuel IH]; intros counter doc s.
  { nothing_added. }
  rewrite poll_loop_unfold.
  assert (Hnil : ∃ evs, events s = events s ++ evs ∧
                        Forall (λ ev, through_session ev = false) evs)
    by nothing_added.
  destruct (not_done doc e s).1 as [[|]| |]; try exact Hnil.
  destruct (counter =? 5).
  { exists [too_long]. split; [reflexivity|repeat constructor]. }
  cbv zeta.
  set (rq := get_request url headers payload (Some 5)).
  set (new := [EvSleep 60; EvRequest requests_api rq]).
  assert (Hnew : Forall (λ ev, through_session ev = false) new)
    by (repeat constructor).
  destruct (net e (nreq s) rq) as [r|x]; [|only_added new Hnew].
  destruct (is_error_status (status_code r)); [only_added new Hnew|].
  destruct (body_json r) as [doc'|]; [|only_added new Hnew].
  destruct (IH (counter + 1) doc' (after new 1 s)) as (evs & Hev & Hall).
  exists (new ++ evs). split.
  - rewrite Hev. cbn [after events]. rewrite <- app_assoc. reflexivity.
  - apply Forall_app. split; assumption.
Qed.

(** Fuel: a turn either leaves the loop or raises the counter, and the
    counter stops the loop at 5. *)
Lemma poll_loop_fuel fuel payload counter doc s :
  0 ≤ counter ≤ 5 → (Z.to_nat (5 - counter) < fuel)%nat →
  (poll_loop fuel url headers payload counter doc e s).1 ≠ NoFuel ∧
  ∀ fuel', (Z.to_nat (5 - counter) < fuel')%nat →
    poll_loop fuel' url headers payload counter doc e s
    = poll_loop fuel url headers payload counter doc e s.
Proof.
  revert counter doc s.
  induction fuel as [|fuel IH]; intros counter doc s Hc Hfuel; [lia|].
  split.
  - rewrite poll_loop_unfold.
    destruct (not_done doc e s).1 as [[|]| |] eqn:Hnd; try discriminate.
    + destruct (counter =? 5) eqn:H5; [discriminate|].
      apply Z.eqb_neq in H5. cbv zeta.
      destruct (net e (nreq s) _) as [r|x]; [|discriminate].
      destruct (is_error_status (status_code r)); [discriminate|].
      destruct (body_json r) as [doc'|]; [|discriminate].
      apply IH; lia.
    + exfalso. clear -Hnd.
      revert Hnd. cbv [not_done getitem join_json mbind M_bind mret M_ret raise].
      destruct doc as [| | | |items|fields]; try discriminate.
      destruct (assoc "logs" fields) as [[| | | |items|fields']|]; try discriminate.
      destruct (strs_of items); discriminate.
  - intros [|fuel'] Hfuel'; [lia|].
    rewrite !poll_loop_unfold.
    destruct (not_done doc e s).1 as [[|]| |]; try reflexivity.
    destruct (counter =? 5) eqn:H5; [reflexivity|].
    apply Z.eqb_neq in H5. cbv zeta.
    destruct (net e (nreq s) _) as [r|x]; [|reflexivity].
    destruct (is_error_status (status_code r)); [reflexivity|].
    destruct (body_json r) as [doc'|]; [|reflexivity].
    apply IH; lia.
Qed.

Lemma not_marker_in (lines : list string) :
  ¬ marker_in lines → contains marker (join lines) = false.
Proof. intros H. apply contains_false. exact H. Qed.

(** As long as the fetched logs lack the marker the loop sleeps and polls,
    until the counter stands at 5. *)
Lemma poll_loop_pending (k : nat) fuel counter doc lines s :
  counter = 5 - Z.of_nat k → (k ≤ 5)%nat → (k < fuel)%nat →
  log_of doc lines → ¬ marker_in lines →
  (∀ j rq, (j < k)%nat → pending (net e (nreq s + j) rq)) →
  poll_loop fuel url headers [("action", "logs")] counter doc e s
  = (Ret (),
     after (concat (replicate k [EvSleep 60;
                                 EvRequest requests_api (poll_request url headers)])
            ++ [too_long]) k s).
Proof.
  revert fuel counter doc lines s.
  induction k as [|k IH]; intros fuel counter doc lines s Hc Hk Hfuel Hdoc Hno Hnet;
    (destruct fuel as [|fuel]; [lia|]).
  - replace counter with 5 by lia.
    rewrite (poll_loop_limit _ _ _ _ _ Hdoc (not_marker_in _ Hno)).
    reflexivity.
  - rewrite (poll_loop_again _ _ _ _ _ Hdoc (not_marker_in _ Hno)) by lia.
    cbv zeta.
    destruct (Hnet 0%nat (poll_request url headers)) as
      (r & doc' & lines' & Hr & Hst & Hbody & Hdoc' & Hno'); [lia|].
    rewrite Nat.add_0_r in Hr. rewrite Hr, Hst, Hbody.
    rewrite (IH fuel (counter + 1) doc' lines'); try assumption; try lia.
    + rewrite after_after. reflexivity.
    + intros j rq Hj. cbn [after nreq].
      replace (nreq s + 1 + j)%nat with (nreq s + S j)%nat by lia.
      apply Hnet. lia.
Qed.

(** [status_done], unfolded down to its loop. *)
Lemma status_done_fuel_unfold fuel s :
  status_done_fuel fuel url headers e s
  = let s1 := after [mount_retry; EvRequest requests_api (poll_request url headers)] 1 s in
    match net e (nreq s) (poll_request url headers) with
    | Fails x => (Raise (Exc x), s1)
    | Answer r =>
        match body_json r with
        | None => (Raise (Exc JSONDecodeError), s1)
        | Some doc =>
            match poll_loop fuel url headers [("action", "logs")] 0 doc e s1 with
            | (Ret _, s') => (Ret true, s')
            | (Raise x, s') => (Raise x, s')
            | (NoFuel, s') => (NoFuel, s')
            end
        end
    end.
Proof.
  unfold status_done_fuel, mbind, M_bind, emit, requests_get, http_request,
    r_json, after, poll_request, mount_retry.
  cbn [fs events nreq]. rewrite <- app_assoc. cbn [app].
  rewrite Nat.add_1_r.
  destruct (net e (nreq s) _) as [r|x]; [|reflexivity].
  destruct (body_json r) as [doc|]; [|reflexivity].
  cbn. destruct (poll_loop fuel _ _ _ _ _ _ _) as [[| |] s']; reflexivity.
Qed.

(** The loop of [status_done] always comes to an end: six units of fuel are
    enough, and more change nothing. *)
Lemma status_done_fuel_enough fuel s :
  (6 ≤ fuel)%nat →
  status_done_fuel fuel url headers e s = status_done url headers e s ∧
  (status_done url headers e s).1 ≠ NoFuel.
Proof.
  intros Hfuel. unfold status_done. rewrite !status_done_fuel_unfold. cbv zeta.
  destruct (net e (nreq s) _) as [r|x]; [|split; [reflexivity|discriminate]].
  destruct (body_json r) as [doc|]; [|split; [reflexivity|discriminate]].
  set (s1 := after _ 1 s).
  destruct (poll_loop_fuel 6 [("action", "logs")] 0 doc s1)
    as [Hend Hsame]; [lia|cbn; lia|].
  rewrite (Hsame fuel) by (cbn; lia).
  split; [reflexivity|].
  destruct (poll_loop 6 _ _ _ _ _ _ _) as [[| |] s']; cbn in *; congruence.
Qed.

(** Whatever [status_done] returns, it is [True]. *)
Lemma status_done_returns_true s done s' :
  status_done url headers e s = (Ret done, s') → done = true.
Proof.
  unfold status_done. rewrite status_done_fuel_unfold. cbv zeta.
  destruct (net e (nreq s) _) as [r|x]; [|discriminate].
  destruct (body_json r) as [doc|]; [|discriminate].
  destruct (poll_loop 6 _ _ _ _ _ _ _) as [[| |] s'']; congruence.
Qed.

(** The run of the poller when the marker never shows up. *)
Lemma status_done_pending s :
  (∀ k rq, (k < 6)%nat → pending (net e (nreq s + k) rq)) →
  status_done url headers e s
  = (Ret true,
     after ([mount_retry; EvRequest requests_api (poll_request url headers)]
            ++ concat (replicate 5 [EvSleep 60;
                                    EvRequest requests_api (poll_request url headers)])
            ++ [too_long]) 6 s).
Proof.
  intros Hnet. unfold status_done. rewrite status_done_fuel_unfold. cbv zeta.
  destruct (Hnet 0%nat (poll_request url headers)) as
    (r & doc & lines & Hr & _ & Hbody & Hdoc & Hno); [lia|].
  rewrite Nat.add_0_r in Hr. rewrite Hr, Hbody.
  rewrite (poll_loop_pending 5 6 0 doc lines); try assumption; try lia.
  - rewrite after_after. reflexivity.
  - intros j rq Hj. cbn [after nreq].
    replace (nreq s + 1 + j)%nat with (nreq s + S j)%nat by lia.
    apply Hnet. lia.
Qed.

(** All events of [status_done]; no request goes through the session. *)
Lemma status_done_trace s :
  ∃ evs, events (status_done url headers e s).2 = events s ++ evs ∧
         Forall (λ ev, through_session ev = false) evs.
Proof.
  unfold status_done. rewrite status_done_fuel_unfold. cbv zeta.
  set (first := [mount_retry; EvRequest requests_api (poll_request url headers)]).
  assert (Hfirst : Forall (λ ev, through_session ev = false) first)
    by (repeat constructor).
  destruct (net e (nreq s) _) as [r|x]; [|only_added first Hfirst].
  destruct (body_json r) as [doc|]; [|only_added first Hfirst].
  destruct (poll_loop_trace 6 [("action", "logs")] 0 doc (after first 1 s))
    as (evs & Hev & Hall).
  exists (first ++ evs). split.
  - destruct (poll_loop 6 _ _ _ _ _ _ _) as [[| |] s']; cbn [snd] in *;
      rewrite Hev; cbn [after events]; rewrite <- app_assoc; reflexivity.
  - apply Forall_app. split; assumption.
Qed.

End Poller.

(** ** The submitter *)

Lemma submit_query_cgi_unfold input genome cancer headers e s :
  submit_query_cgi input genome cancer headers e s
  = match fs s !! input with
    | None =>
        (Raise (Exc (FileNotFoundError input)),
         after [EvInfo "Querying REST API"] 0 s)
    | Some f =>
        let rq := submit_request f genome cancer headers in
        let s' := after [EvInfo "Querying REST API"; EvRequest requests_api rq] 1 s in
        match net e (nreq s) rq with
        | Fails x => (Raise (if is_HTTPError x then SystemExit x else Exc x), s')
        | Answer r =>
            if is_error_status (status_code r)
            then (Raise (SystemExit (HTTPError (status_code r))), s')
            else match body_json r with
                 | None => (Raise (Exc JSONDecodeError), s')
                 | Some (JStr job_id) => (Ret ((api_v1 +:+ "/") +:+ job_id), s')
                 | Some _ => (Raise (Exc TypeError), s')
                 end
        end
    end.
Proof.
  unfold submit_query_cgi, mbind, M_bind, emit, try_except, open_rb,
    requests_post, http_request, raise_for_status, r_json, str_add,
    submit_request, after.
  cbn [fs events nreq]. rewrite Nat.add_0_r, Nat.add_1_r.
  destruct (fs s !! input) as [f|]; [|reflexivity].
  cbn [fs events nreq]. rewrite <- app_assoc. cbn [app].
  destruct (net e (nreq s) _) as [r|x].
  - destruct (is_error_status (status_code r)); [reflexivity|].
    destruct (body_json r) as [[| | | | |]|]; reflexivity.
  - destruct x; reflexivity.
Qed.

(** ** The result fetcher *)

Lemma download_cgi_unfold url headers output e s :
  download_cgi url headers output e s
  = let archive := output +:+ ".cgi_results.zip" in
    let s1 := after [EvRequest requests_api (download_request url headers)] 1 s in
    match net e (nreq s) (download_request url headers) with
    | Fails _ => (Ret (), after [oops] 0 s1)
    | Answer r =>
        match open_w e archive with
        | Some _ => (Ret (), after [oops] 0 s1)
        | None =>
            match write_w e archive (_content r) with
            | Some _ => (Ret (), after [oops] 0 (set_file archive (Raw "") s1))
            | None => (Ret (), set_file archive (Raw (_content r)) s1)
            end
        end
    end.
Proof.
  unfold download_cgi, mbind, M_bind, emit, try_except, requests_get,
    http_request, open_write, write, download_request, after, oops.
  cbn [fs events nreq]. rewrite Nat.add_1_r.
  destruct (net e (nreq s) _) as [r|x]; [|rewrite Nat.add_0_r; reflexivity].
  destruct (open_w e _); [rewrite Nat.add_0_r; reflexivity|].
  cbn [set_file fs events nreq].
  destruct (write_w e _ _); [rewrite Nat.add_0_r; reflexivity|].
  unfold set_file. cbn [fs events nreq].
  rewrite lookup_insert_eq, insert_insert_eq. reflexivity.
Qed.

(** [download_cgi] returns normally whatever the service and the operating
    system do. *)
Lemma download_cgi_returns url headers output e s :
  ∃ s', download_cgi url headers output e s = (Ret (), s').
Proof.
  rewrite download_cgi_unfold. cbv zeta.
  destruct (net e (nreq s) _) as [r|x]; [|eexists; reflexivity].
  destruct (open_w e _); [eexists; reflexivity|].
  destruct (write_w e _ _); eexists; reflexivity.
Qed.

(** Its first act is the download request. *)
Lemma download_cgi_requests url headers output e s :
  EvRequest requests_api (download_request url headers)
    ∈ events (download_cgi url headers output e s).2.
Proof.
  rewrite download_cgi_unfold. cbv zeta.
  destruct (net e (nreq s) _) as [r|x];
    [destruct (open_w e _); [|destruct (write_w e _ _)]|];
    cbn; set_solver.
Qed.

Lemma add_cgi_metadata_missing url output e s :
  fs s !! (output +:+ ".cgi_results.zip") = None →
  add_cgi_metadata url output e s
  = (Raise (Exc (FileNotFoundError (output +:+ ".cgi_results.zip"))), s).
Proof.
  intros Hno. unfold add_cgi_metadata, mbind at 1, M_bind, extractall.
  rewrite Hno. reflexivity.
Qed.

(** The metadata step adds no event: it only touches files. *)
Lemma add_cgi_metadata_events url output e s :
  events (add_cgi_metadata url output e s).2 = events s.
Proof.
  unfold add_cgi_metadata, mbind, M_bind, extractall, date_today, open_write,
    write.
  destruct (fs s !! _) as [[t|b]|]; try reflexivity.
  destruct (unzip e b); [|reflexivity].
  destruct (open_w e _); [reflexivity|].
  destruct (write_w e _ _); [reflexivity|].
  destruct (write_w e _ _); reflexivity.
Qed.

(** ** The pipeline *)

(** Once the table is prepared and the job submitted, [query_cgi] is the
    poller followed by the guarded fetch. *)
Lemma query_cgi_submitted input genome cancer headers output e s0 cgi_file s1 url s :
  prepare_cgi_query_file input output e s0 = (Ret cgi_file, s1) →
  submit_query_cgi cgi_file genome cancer headers e s1 = (Ret url, s) →
  query_cgi input genome cancer headers output e s0
  = match status_done url headers e s with
    | (Ret done, s') =>
        if done
        then (download_cgi url headers output;; add_cgi_metadata url output) e
               (after [EvInfo "CGI Query finished";
                       EvInfo "Downloading CGI results"] 0 s')
        else (Ret (), after [EvInfo "CGI Query finished"] 0 s')
    | (Raise x, s') => (Raise x, s')
    | (NoFuel, s') => (NoFuel, s')
    end.
Proof.
  intros Hprep Hsub. unfold query_cgi. unfold mbind at 1, M_bind.
  rewrite Hprep. unfold mbind at 1, M_bind. rewrite Hsub.
  unfold mbind at 1, M_bind.
  destruct (status_done url headers e s) as [[done| |] s']; try reflexivity.
  unfold mbind at 1, M_bind, emit. destruct done.
  - unfold mbind at 1, M_bind. unfold after. cbn [fs events nreq].
    rewrite <- app_assoc, Nat.add_0_r. reflexivity.
  - unfold after. cbn. rewrite Nat.add_0_r. reflexivity.
Qed.

(** ** C1: the poller gives up after five retries *)

(** C1. If the completion marker is in none of the fetched logs, the poller
    polls exactly five more times after the initial poll, each time after a
    sleep of 60, then stops without raising ([status_done] returns), and
    [query_cgi] goes on to the download step. *)
Theorem never_done_times_out input genome cancer headers output e s0 cgi_file s1 url s :
  prepare_cgi_query_file input output e s0 = (Ret cgi_file, s1) →
  submit_query_cgi cgi_file genome cancer headers e s1 = (Ret url, s) →
  (∀ k rq, (k < 6)%nat → pending (net e (nreq s + k) rq)) →
  let poll := EvRequest requests_api (poll_request url headers) in
  let polled :=
    after ([mount_retry; poll] ++ concat (replicate 5 [EvSleep 60; poll])
           ++ [too_long]) 6 s in
  status_done url headers e s = (Ret true, polled) ∧
  query_cgi input genome cancer headers output e s0
  = (download_cgi url headers output;; add_cgi_metadata url output) e
      (after [EvInfo "CGI Query finished"; EvInfo "Downloading CGI results"] 0 polled) ∧
  EvRequest requests_api (download_request url headers)
    ∈ events (query_cgi input genome cancer headers output e s0).2.
Proof.
  intros Hprep Hsub Hnet poll polled.
  pose proof (status_done_pending url headers e s Hnet) as Hpoll.
  pose proof (query_cgi_submitted _ _ _ _ _ _ _ _ _ _ _ Hprep Hsub) as Hq.
  rewrite Hpoll in Hq. fold poll polled in Hq, Hpoll.
  split; [exact Hpoll|]. split; [exact Hq|].
  rewrite Hq. unfold mbind, M_bind.
  set (s2 := after _ 0 polled).
  pose proof (download_cgi_requests url headers output e s2) as Hreq.
  destruct (download_cgi_returns url headers output e s2) as [s3 Hs3].
  rewrite Hs3 in Hreq |- *. cbn [snd] in Hreq.
  rewrite add_cgi_metadata_events. exact Hreq.
Qed.

Lemma still_waiting : ¬ marker_in ["Annotating variants"].
Proof. apply contains_false. vm_compute. reflexivity. Qed.

Lemma slow_is_pending k rq : (k < 6)%nat → pending (net slow (1 + k) rq).
Proof.
  intros Hk.
  assert (Hlog : pending (log_reply ["Annotating variants"])).
  { eexists _, _, ["Annotating variants"].
    split; [reflexivity|]. split; [reflexivity|]. split; [reflexivity|].
    split; [|exact still_waiting].
    eexists. split; reflexivity. }
  do 6 (destruct k as [|k]; [exact Hlog|]). lia.
Qed.

Lemma never_done_times_out_witness :
  EvRequest requests_api (download_request job_url [])
    ∈ events (query_cgi "variants.tsv" "GRCh38" brca [] "sample1" slow
                (disk [("variants.tsv", TSV variants)])).2.
Proof.
  refine (proj2 (proj2 (never_done_times_out
    "variants.tsv" "GRCh38" brca [] "sample1" slow
    (disk [("variants.tsv", TSV variants)]) "sample1.cgi_input.tsv"
    (prepare_cgi_query_file "variants.tsv" "sample1" slow
       (disk [("variants.tsv", TSV variants)])).2
    job_url
    (submit_query_cgi "sample1.cgi_input.tsv" "GRCh38" brca [] slow
       (prepare_cgi_query_file "variants.tsv" "sample1" slow
          (disk [("variants.tsv", TSV variants)])).2).2
    _ _ _))).
  - vm_compute. reflexivity.
  - vm_compute. reflexivity.
  - intros k rq Hk. apply slow_is_pending. exact Hk.
Defined.

(** ** C4: an HTTP error on submission ends the program *)

(** C4. If the submission request is answered with an HTTP error status
    (4xx or 5xx), [submit_query_cgi] raises [SystemExit] instead of
    returning, and so does [query_cgi]: the POST is the only request of the
    run, neither a poll nor the download is attempted. *)
Theorem submission_error_is_fatal input genome cancer headers output e s0 cgi_file s f r :
  prepare_cgi_query_file input output e s0 = (Ret cgi_file, s) →
  fs s !! cgi_file = Some f →
  net e (nreq s) (submit_request f genome cancer headers) = Answer r →
  400 ≤ status_code r < 600 →
  let stopped :=
    after [EvInfo "Querying REST API";
           EvRequest requests_api (submit_request f genome cancer headers)] 1 s in
  submit_query_cgi cgi_file genome cancer headers e s
  = (Raise (SystemExit (HTTPError (status_code r))), stopped) ∧
  query_cgi input genome cancer headers output e s0
  = (Raise (SystemExit (HTTPError (status_code r))), stopped).
Proof.
  intros Hprep Hfile Hnet Hstatus stopped.
  assert (Hsub : submit_query_cgi cgi_file genome cancer headers e s
                 = (Raise (SystemExit (HTTPError (status_code r))), stopped)).
  { rewrite submit_query_cgi_unfold, Hfile. cbv zeta. rewrite Hnet.
    unfold is_error_status.
    replace (400 <=? status_code r) with true by (symmetry; apply Z.leb_le; lia).
    replace (status_code r <? 600) with true by (symmetry; apply Z.ltb_lt; lia).
    reflexivity. }
  split; [exact Hsub|].
  unfold query_cgi. unfold mbind at 1, M_bind. rewrite Hprep.
  unfold mbind at 1, M_bind. rewrite Hsub. reflexivity.
Qed.

Lemma submission_error_is_fatal_witness :
  query_cgi "variants.tsv" "GRCh38" brca [] "sample1"
    (service [answer 500 None "Internal Server Error"])
    (disk [("variants.tsv", TSV variants)])
  = (Raise (SystemExit (HTTPError 500)),
     after [EvInfo "Querying REST API";
            EvRequest requests_api (submit_request (TSV upload) "GRCh38" brca [])] 1
       (prepare_cgi_query_file "variants.tsv" "sample1"
          (service [answer 500 None "Internal Server Error"])
          (disk [("variants.tsv", TSV variants)])).2).
Proof.
  refine (proj2 (submission_error_is_fatal
    "variants.tsv" "GRCh38" brca [] "sample1"
    (service [answer 500 None "Internal Server Error"])
    (disk [("variants.tsv", TSV variants)]) "sample1.cgi_input.tsv"
    (prepare_cgi_query_file "variants.tsv" "sample1"
       (service [answer 500 None "Internal Server Error"])
       (disk [("variants.tsv", TSV variants)])).2
    (TSV upload)
    {| status_code := 500; body_json := None;
       _content := "Internal Server Error" |}
    _ _ _ _)).
  - vm_compute. reflexivity.
  - vm_compute. reflexivity.
  - reflexivity.
  - cbn. lia.
Defined.

(** ** C8: the first poll stands outside the [try] *)

(** C8. The first poll is issued before the loop and outside any [try]: when
    it fails (the request raises, whatever the exception: connection error,
    timeout, ...; or the body is not JSON, or holds no "logs") the exception
    leaves [status_done] as it is, not as [SystemExit]; [SystemExit] is what
    an HTTP error status on a later poll is turned into. *)
Theorem first_poll_failure_uncaught url headers e s :
  let poll := poll_request url headers in
  let s1 := after [mount_retry; EvRequest requests_api poll] 1 s in
  (∀ x, net e (nreq s) poll = Fails x →
        status_done url headers e s = (Raise (Exc x), s1)) ∧
  (∀ r, net e (nreq s) poll = Answer r → body_json r = None →
        status_done url headers e s = (Raise (Exc JSONDecodeError), s1)) ∧
  (∀ r fields, net e (nreq s) poll = Answer r →
        body_json r = Some (JObj fields) → assoc "logs" fields = None →
        status_done url headers e s = (Raise (Exc (KeyError "logs")), s1)) ∧
  (∀ r doc lines r', net e (nreq s) poll = Answer r →
        body_json r = Some doc → log_of doc lines → ¬ marker_in lines →
        net e (S (nreq s)) poll = Answer r' →
        is_error_status (status_code r') = true →
        status_done url headers e s
        = (Raise (SystemExit (HTTPError (status_code r'))),
           after [EvSleep 60; EvRequest requests_api poll] 1 s1)).
Proof.
  intros poll s1. unfold status_done.
  split; [|split; [|split]].
  - intros x Hnet. rewrite status_done_fuel_unfold. cbv zeta.
    fold poll. rewrite Hnet. reflexivity.
  - intros r Hnet Hbody. rewrite status_done_fuel_unfold. cbv zeta.
    fold poll. rewrite Hnet, Hbody. reflexivity.
  - intros r fields Hnet Hbody Hlogs. rewrite status_done_fuel_unfold.
    cbv zeta. fold poll. rewrite Hnet, Hbody, poll_loop_unfold.
    cbv [not_done getitem mbind M_bind raise]. rewrite Hlogs. reflexivity.
  - intros r doc lines r' Hnet Hbody Hdoc Hno Hnet' Herr.
    rewrite status_done_fuel_unfold. cbv zeta. fold poll.
    rewrite Hnet, Hbody.
    rewrite (poll_loop_again _ _ _ _ _ _ _ _ Hdoc (not_marker_in _ Hno)) by lia.
    cbv zeta. fold poll s1.
    replace (nreq s1) with (S (nreq s)) by (cbn; lia).
    rewrite Hnet', Herr. reflexivity.
Qed.

Lemma first_poll_failure_uncaught_witness :
  status_done job_url [] (service [Fails Timeout]) (disk [])
  = (Raise (Exc Timeout),
     after [mount_retry; EvRequest requests_api (poll_request job_url [])] 1 (disk []))
  ∧ status_done job_url [] (service [answer 502 None "Bad Gateway"]) (disk [])
  = (Raise (Exc JSONDecodeError),
     after [mount_retry; EvRequest requests_api (poll_request job_url [])] 1 (disk []))
  ∧ status_done job_url [] (service [answer 200 (Some (JObj [])) ""]) (disk [])
  = (Raise (Exc (KeyError "logs")),
     after [mount_retry; EvRequest requests_api (poll_request job_url [])] 1 (disk []))
  ∧ status_done job_url []
      (service [log_reply ["Annotating variants"]; answer 502 None "Bad Gateway"])
      (disk [])
  = (Raise (SystemExit (HTTPError 502)),
     after [EvSleep 60; EvRequest requests_api (poll_request job_url [])] 1
       (after [mount_retry; EvRequest requests_api (poll_request job_url [])] 1
          (disk []))).
Proof.
  split; [|split; [|split]].
  - apply (proj1 (first_poll_failure_uncaught job_url []
                    (service [Fails Timeout]) (disk []))).
    reflexivity.
  - apply (proj1 (proj2 (first_poll_failure_uncaught job_url []
                    (service [answer 502 None "Bad Gateway"]) (disk [])))
             {| status_code := 502; body_json := None; _content := "Bad Gateway" |});
      reflexivity.
  - apply (proj1 (proj2 (proj2 (first_poll_failure_uncaught job_url []
                    (service [answer 200 (Some (JObj [])) ""]) (disk []))))
             {| status_code := 200; body_json := Some (JObj []); _content := "" |} []);
      reflexivity.
  - apply (proj2 (proj2 (proj2 (first_poll_failure_uncaught job_url []
                    (service [log_reply ["Annotating variants"];
                              answer 502 None "Bad Gateway"]) (disk []))))
             {| status_code := 200; body_json := Some waiting; _content := "" |}
             waiting ["Annotating variants"]
             {| status_code := 502; body_json := None; _content := "Bad Gateway" |}).
    + reflexivity.
    + reflexivity.
    + eexists. split; reflexivity.
    + exact still_waiting.
    + reflexivity.
    + reflexivity.
Defined.

(** ** C10: the guard on the poller's result *)

(** C10. Whenever [status_done] returns normally it returns [True], also
    when it gave up on the marker; so in [query_cgi] the guard [if done] is
    always taken: [download_cgi] runs (and returns), then
    [add_cgi_metadata] runs. *)
Theorem done_guard_always_taken :
  (∀ url headers e s done s',
     status_done url headers e s = (Ret done, s') → done = true) ∧
  (∀ input genome cancer headers output e s0 cgi_file s1 url s done s',
     prepare_cgi_query_file input output e s0 = (Ret cgi_file, s1) →
     submit_query_cgi cgi_file genome cancer headers e s1 = (Ret url, s) →
     status_done url headers e s = (Ret done, s') →
     ∃ s'',
       download_cgi url headers output e
         (after [EvInfo "CGI Query finished"; EvInfo "Downloading CGI results"] 0 s')
       = (Ret (), s'') ∧
       query_cgi input genome cancer headers output e s0
       = add_cgi_metadata url output e s'').
Proof.
  split; [exact status_done_returns_true|].
  intros input genome cancer headers output e s0 cgi_file s1 url s done s'
    Hprep Hsub Hdone.
  pose proof (status_done_returns_true _ _ _ _ _ _ Hdone) as ->.
  rewrite (query_cgi_submitted _ _ _ _ _ _ _ _ _ _ _ Hprep Hsub), Hdone.
  destruct (download_cgi_returns url headers output e
              (after [EvInfo "CGI Query finished";
                      EvInfo "Downloading CGI results"] 0 s')) as [s'' Hs''].
  exists s''. split; [exact Hs''|].
  unfold mbind, M_bind. rewrite Hs''. reflexivity.
Qed.

Lemma done_guard_always_taken_witness :
  ∃ s'',
    query_cgi "variants.tsv" "GRCh38" brca [] "sample1" slow
      (disk [("variants.tsv", TSV variants)])
    = add_cgi_metadata job_url "sample1" slow s''.
Proof.
  destruct (proj2 done_guard_always_taken
    "variants.tsv" "GRCh38" brca [] "sample1" slow
    (disk [("variants.tsv", TSV variants)]) "sample1.cgi_input.tsv"
    (prepare_cgi_query_file "variants.tsv" "sample1" slow
       (disk [("variants.tsv", TSV variants)])).2
    job_url
    (submit_query_cgi "sample1.cgi_input.tsv" "GRCh38" brca [] slow
       (prepare_cgi_query_file "variants.tsv" "sample1" slow
          (disk [("variants.tsv", TSV variants)])).2).2
    true
    (status_done job_url [] slow
       (submit_query_cgi "sample1.cgi_input.tsv" "GRCh38" brca [] slow
          (prepare_cgi_query_file "variants.tsv" "sample1" slow
             (disk [("variants.tsv", TSV variants)])).2).2).2)
    as (s'' & _ & Hq).
  - vm_compute. reflexivity.
  - vm_compute. reflexivity.
  - vm_compute. reflexivity.
  - exists s''. exact Hq.
Defined.

(** ** C2: the retry session *)

(** C2, as the code has it.  [status_done] mounts the retry adapter on its
    session and then sends every poll through [requests.get]: among the
    events it adds there is the mount and no request through the session.
    So a 503 on a poll, which the mounted strategy lists for retrying, ends
    the program at once. *)
Theorem polls_bypass_retry_session :
  (∀ url headers e s,
     ∃ evs, events (status_done url headers e s).2 = events s ++ mount_retry :: evs ∧
            Forall (λ ev, through_session ev = false) evs) ∧
  status_done job_url []
    (service [log_reply ["Annotating variants"]; answer 503 None "Service Unavailable"])
    (disk [])
  = (Raise (SystemExit (HTTPError 503)),
     after [mount_retry;
            EvRequest requests_api (poll_request job_url []);
            EvSleep 60;
            EvRequest requests_api (poll_request job_url [])] 2 (disk [])).
Proof.
  split; [|vm_compute; reflexivity].
  intros url headers e s.
  destruct (status_done_trace url headers e s) as (evs & Hev & Hall).
  assert (Hhead : ∃ evs', evs = mount_retry :: evs') .
  { revert Hev. unfold status_done. rewrite status_done_fuel_unfold. cbv zeta.
    set (s1 := after _ 1 s).
    assert (H1 : ∀ s', (∃ k, events s' = events s1 ++ k) →
                 events s' = events s ++ evs → ∃ evs', evs = mount_retry :: evs').
    { intros s' [k Hk] H. rewrite Hk in H. unfold s1 in H. cbn [after events] in H.
      rewrite <- app_assoc in H. apply app_inv_head in H. subst evs.
      eexists. reflexivity. }
    destruct (net e (nreq s) _) as [r|x];
      [|apply H1; exists []; symmetry; apply app_nil_r].
    destruct (body_json r) as [doc|];
      [|apply H1; exists []; symmetry; apply app_nil_r].
    destruct (poll_loop_trace url headers e 6 [("action", "logs")] 0 doc s1)
      as (k & Hk & _).
    destruct (poll_loop 6 _ _ _ _ _ _ _) as [[| |] s']; cbn [snd] in *;
      apply H1; exists k; exact Hk. }
  destruct Hhead as [evs' ->]. exists evs'. split; [exact Hev|].
  inversion Hall; assumption.
Qed.

(** ** C7: when the poller is done *)

Lemma marker_in_join (lines : list string) :
  contains marker (join lines) = true ↔ marker_in lines.
Proof. apply contains_spec. Qed.

(** A turn that is not done at once sleeps and polls when the counter is
    not yet 5. *)
Lemma poll_loop_polls_again fuel url headers counter doc lines e s :
  log_of doc lines → ¬ marker_in lines → counter ≠ 5 →
  polls_again url headers s
    (poll_loop (S fuel) url headers [("action", "logs")] counter doc e s).2.
Proof.
  intros Hdoc Hno Hc. unfold polls_again.
  rewrite (poll_loop_again _ _ _ _ _ _ _ _ Hdoc (not_marker_in _ Hno) Hc).
  cbv zeta. set (s' := after _ 1 s).
  assert (Hs' : events s ++ [EvSleep 60; EvRequest requests_api (poll_request url headers)]
                `prefix_of` events s') by (exists []; symmetry; apply app_nil_r).
  destruct (net e (nreq s) _) as [r|x]; [|exact Hs'].
  destruct (is_error_status (status_code r)); [exact Hs'|].
  destruct (body_json r) as [doc'|]; [|exact Hs'].
  destruct (poll_loop_trace url headers e fuel [("action", "logs")] (counter + 1)
              doc' s') as (evs & Hev & _).
  rewrite Hev. apply prefix_app_r. reflexivity.
Qed.

Lemma not_polls_again_self url headers s : ¬ polls_again url headers s s.
Proof.
  intros [k Hk]. apply (f_equal length) in Hk.
  rewrite !length_app in Hk. cbn in Hk. lia.
Qed.

(** C7, as the code has it.  On a poll that fetched the log lines [lines],
    the poller is done (the loop is left at once) exactly when the marker
    occurs somewhere in the concatenation of the lines; otherwise it sleeps
    and polls again, unless five retries have been made already: then it
    prints its complaint and stops polling. *)
Theorem poll_turn url headers fuel counter doc lines e s :
  log_of doc lines →
  let r := poll_loop (S fuel) url headers [("action", "logs")] counter doc e s in
  (r = (Ret (), s) ↔ marker_in lines) ∧
  (¬ marker_in lines → counter ≠ 5 → polls_again url headers s r.2) ∧
  (¬ marker_in lines → counter = 5 → r = (Ret (), after [too_long] 0 s)).
Proof.
  intros Hdoc r. split; [|split].
  - split.
    + intros Hr. destruct (contains marker (join lines)) eqn:Hin;
        [apply (marker_in_join lines); exact Hin|].
      apply contains_false in Hin. exfalso.
      destruct (decide (counter = 5)) as [->|Hc].
      * unfold r in Hr.
        rewrite (poll_loop_limit _ _ _ _ _ _ _ _ Hdoc (not_marker_in _ Hin)) in Hr.
        injection Hr as Hr. apply (f_equal events) in Hr.
        apply (f_equal length) in Hr. cbn in Hr. rewrite length_app in Hr.
        cbn in Hr. lia.
      * apply (not_polls_again_self url headers s).
        pose proof (poll_loop_polls_again fuel url headers counter doc lines e s
                      Hdoc Hin Hc) as Hagain.
        fold r in Hagain. rewrite Hr in Hagain. exact Hagain.
    + intros Hin. apply (marker_in_join lines) in Hin.
      apply (poll_loop_done _ _ _ _ _ _ _ _ _ Hdoc Hin).
  - intros Hno Hc.
    apply (poll_loop_polls_again fuel url headers counter doc lines e s Hdoc Hno Hc).
  - intros Hno ->. apply (poll_loop_limit _ _ _ _ _ _ _ _ Hdoc (not_marker_in _ Hno)).
Qed.

Lemma poll_turn_witness :
  poll_loop 1 job_url [] [("action", "logs")] 2
    (JObj [("logs", JArr (JStr <$> ["Annotation: "; "Analysis"; " done. Bye"]))])
    slow (disk [])
  = (Ret (), disk [])
  ∧ polls_again job_url [] (disk [])
      (poll_loop 1 job_url [] [("action", "logs")] 2 waiting slow (disk [])).2
  ∧ poll_loop 1 job_url [] [("action", "logs")] 5 waiting slow (disk [])
    = (Ret (), after [too_long] 0 (disk [])).
Proof.
  split; [|split].
  - apply (proj1 (poll_turn job_url [] 0 2
                    (JObj [("logs", JArr (JStr <$> ["Annotation: "; "Analysis"; " done. Bye"]))])
                    ["Annotation: "; "Analysis"; " done. Bye"] slow (disk [])
                    ltac:(eexists; split; reflexivity))).
    exists "Annotation: ", ". Bye". reflexivity.
  - apply (proj1 (proj2 (poll_turn job_url [] 0 2 waiting ["Annotating variants"]
                           slow (disk []) ltac:(eexists; split; reflexivity)))).
    + exact still_waiting.
    + lia.
  - apply (proj2 (proj2 (poll_turn job_url [] 0 5 waiting ["Annotating variants"]
                           slow (disk []) ltac:(eexists; split; reflexivity)))).
    + exact still_waiting.
    + reflexivity.
Defined.

(** After the fifth retry a log without the marker does not make the
    poller poll again: the turn fails what the specification says of it. *)
Lemma sixth_poll_stops :
  log_of waiting ["Annotating variants"] ∧
  ¬ turn_as_specified job_url [] 0 5 waiting ["Annotating variants"] slow (disk []).
Proof.
  split; [eexists; split; reflexivity|].
  intros [_ Hagain]. specialize (Hagain still_waiting).
  destruct Hagain as [k Hk]. vm_compute in Hk. discriminate Hk.
Qed.

(** ** C3: download errors are swallowed *)

(** C3, as the code has it.  Whatever is raised by the download request, by
    the opening of the archive file or by the write is caught:
    [download_cgi] returns normally in all cases.  When no archive file is
    on disk afterwards (as when none was there before and the request or the
    opening failed), the metadata step fails with a missing-file error. *)
Theorem download_errors_swallowed url headers output e s :
  let archive := output +:+ ".cgi_results.zip" in
  ∃ s', download_cgi url headers output e s = (Ret (), s') ∧
    (fs s' !! archive = None →
       add_cgi_metadata url output e s'
       = (Raise (Exc (FileNotFoundError archive)), s')) ∧
    (fs s !! archive = None →
       (∃ x, net e (nreq s) (download_request url headers) = Fails x)
         ∨ is_Some (open_w e archive) →
       fs s' !! archive = None).
Proof.
  intros archive.
  destruct (download_cgi_returns url headers output e s) as [s' Hs'].
  exists s'. split; [exact Hs'|]. split.
  - apply add_cgi_metadata_missing.
  - intros Hno Hfail. rewrite download_cgi_unfold in Hs'. cbv zeta in Hs'.
    fold archive in Hs'.
    destruct (net e (nreq s) _) as [r|x].
    + destruct Hfail as [[x Hx]|[x Hx]]; [discriminate Hx|].
      rewrite Hx in Hs'. injection Hs' as <-. exact Hno.
    + injection Hs' as <-. exact Hno.
Qed.

Lemma download_errors_swallowed_witness :
  ∃ s', download_cgi job_url [] "sample1" (service []) (disk []) = (Ret (), s') ∧
        add_cgi_metadata job_url "sample1" (service []) s'
        = (Raise (Exc (FileNotFoundError "sample1.cgi_results.zip")), s').
Proof.
  destruct (download_errors_swallowed job_url [] "sample1" (service []) (disk []))
    as (s' & Hrun & Hmiss & Hkeep).
  exists s'. split; [exact Hrun|].
  apply Hmiss. apply Hkeep.
  - reflexivity.
  - left. exists ConnectionError. reflexivity.
Defined.

(** With an archive left by an earlier run the failed download writes
    nothing, and the metadata step unpacks the old archive without any
    error. *)
Lemma stale_archive_is_extracted :
  ¬ download_as_specified job_url [] "sample1" (service [])
      (disk [("sample1.cgi_results.zip", Raw "PK")]).
Proof.
  intros (s' & Hrun & Hmiss).
  vm_compute in Hrun. injection Hrun as <-.
  destruct Hmiss as [path Hpath]; [reflexivity|].
  vm_compute in Hpath. discriminate Hpath.
Qed.

(** ** C9: the metadata file *)

(** C9. When the archive unpacks and the file can be written, the metadata
    step leaves in the results directory a [metadata.txt] that holds exactly
    the line with the current date and then the API-version line with the
    job URL less its last 20 characters. *)
Theorem metadata_written url output e s b members :
  let f := (output +:+ ".cgi_results") +:+ "/metadata.txt" in
  fs s !! (output +:+ ".cgi_results.zip") = Some (Raw b) →
  unzip e b = Some members →
  open_w e f = None →
  (∀ data, write_w e f data = None) →
  ∃ s', add_cgi_metadata url output e s = (Ret (), s') ∧
    fs s' !! f
    = Some (Raw ("CGI query date: " +:+ today e +:+ newline +:+
                 "API version: " +:+ drop_last 20 url)) ∧
    (∀ base id, url = base +:+ id → String.length id = 20%nat →
                drop_last 20 url = base).
Proof.
  intros f Harchive Hzip Hopen Hwrite.
  unfold add_cgi_metadata, mbind, M_bind, extractall, date_today, open_write,
    write.
  rewrite Harchive, Hzip. fold f. rewrite Hopen.
  rewrite !Hwrite. eexists. split; [reflexivity|]. split.
  - cbn [set_file fs]. rewrite !lookup_insert_eq. reflexivity.
  - intros base id -> Hid. apply drop_last_app. exact Hid.
Qed.

Lemma metadata_written_witness :
  ∃ s', add_cgi_metadata job_url "sample1" (service [])
          (disk [("sample1.cgi_results.zip", Raw "PK")]) = (Ret (), s') ∧
        fs s' !! "sample1.cgi_results/metadata.txt"
        = Some (Raw ("CGI query date: 2023-05-04" +:+ newline +:+
                     "API version: https://www.cancergenomeinterpreter.org/api/v1/")).
Proof.
  destruct (metadata_written job_url "sample1" (service [])
              (disk [("sample1.cgi_results.zip", Raw "PK")]) "PK"
              [("alterations.tsv", "gene")])
    as (s' & Hrun & Hfile & Hurl).
  - reflexivity.
  - reflexivity.
  - reflexivity.
  - reflexivity.
  - exists s'. split; [exact Hrun|].
    rewrite (Hurl (api_v1 +:+ "/") job) in Hfile; [exact Hfile|reflexivity|reflexivity].
Defined.

(** ** C6: the input preparer *)

Lemma elem_of_drop_seen seen l r :
  r ∈ drop_seen seen l ↔ r ∈ l ∧ r ∉ seen.
Proof.
  revert seen. induction l as [|x l IH]; intros seen; cbn [drop_seen].
  - split; [intros H; inversion H|intros [H _]; inversion H].
  - case_bool_decide as Hx.
    + rewrite IH, elem_of_cons. split.
      * intros [Hr Hn]. split; [right; exact Hr|exact Hn].
      * intros [[->|Hr] Hn]; [contradiction|]. split; assumption.
    + rewrite elem_of_cons, IH, !elem_of_cons.
      destruct (decide (r = x)) as [->|Hne]; tauto.
Qed.

Lemma NoDup_drop_seen seen l : NoDup (drop_seen seen l).
Proof.
  revert seen. induction l as [|x l IH]; intros seen; cbn [drop_seen].
  - constructor.
  - case_bool_decide as Hx; [apply IH|].
    constructor; [|apply IH].
    rewrite elem_of_drop_seen. intros [_ Hn]. apply Hn. left.
Qed.

(** Only the rows in [seen] matter, not how often or where they stand. *)
Lemma drop_seen_ext seen seen' l :
  (∀ r, r ∈ seen ↔ r ∈ seen') → drop_seen seen l = drop_seen seen' l.
Proof.
  revert seen seen'. induction l as [|x l IH]; intros seen seen' Hsame;
    cbn [drop_seen]; [reflexivity|].
  rewrite (bool_decide_ext (x ∈ seen) (x ∈ seen')) by apply Hsame.
  case_bool_decide as Hx; [apply IH; exact Hsame|].
  f_equal. apply IH. intros r. rewrite !elem_of_cons, Hsame. reflexivity.
Qed.

(** Every row is kept or counted as a duplicate. *)
Lemma length_drop_seen seen l :
  (length (drop_seen seen l) + duplicates_from seen l = length l)%nat.
Proof.
  revert seen. induction l as [|x l IH]; intros seen;
    cbn [drop_seen duplicates_from length]; [reflexivity|].
  case_bool_decide as Hx.
  - rewrite (drop_seen_ext seen (x :: seen)).
    + specialize (IH (x :: seen)). lia.
    + intros r. rewrite elem_of_cons. split; [auto|].
      intros [->|Hr]; assumption.
  - cbn [length]. specialize (IH (x :: seen)). lia.
Qed.

Lemma zip_with_replicate {A B C} (f : A → B → C) (l : list A) (v : B) :
  zip_with f l (replicate (length l) v) = (λ x, f x v) <$> l.
Proof.
  induction l as [|x l IH]; [reflexivity|].
  cbn [length replicate zip_with]. rewrite IH. reflexivity.
Qed.

Lemma prepare_cgi_query_file_unfold input output e s t :
  fs s !! input = Some (TSV t) →
  prepare_cgi_query_file input output e s
  = let df := drop_duplicates (iloc_cols 5 t) in
    let path := output +:+ ".cgi_input.tsv" in
    match columns df with
    | [] => (Raise (Exc IndexError), s)
    | _ :: _ =>
        match open_w e path with
        | Some x => (Raise (Exc x), s)
        | None =>
            (Ret path,
             set_file path
               (TSV (setitem "SAMPLE" (replicate (length (rows df)) (CStr output)) df))
               s)
        end
    end.
Proof.
  intros Hin. unfold prepare_cgi_query_file, mbind, M_bind, read_csv,
    len_first_column, to_csv.
  rewrite Hin. cbv zeta.
  destruct (columns (drop_duplicates (iloc_cols 5 t))); [reflexivity|].
  cbn. destruct (open_w e _); reflexivity.
Qed.

(** C6, as the code has it.  For every table with at least five columns,
    none of the first five labelled SAMPLE, and every sample name, the
    preparer writes a file with exactly the first five columns and a sample
    column, the duplicate rows (over the five columns) removed: N rows with D
    duplicates leave N - D rows, each with the sample name in the sample
    column; and it returns the path of that file. *)
Theorem prepare_cgi_query_file_writes e s input output t :
  fs s !! input = Some (TSV t) →
  wf_frame t →
  (5 ≤ length (columns t))%nat →
  "SAMPLE" ∉ take 5 (columns t) →
  open_w e (output +:+ ".cgi_input.tsv") = None →
  prepare_writes e s input output t.
Proof.
  intros Hin Hwf Hcols Hfree Hopen. unfold prepare_writes.
  rewrite (prepare_cgi_query_file_unfold _ _ _ _ _ Hin). cbv zeta.
  cbn [drop_duplicates iloc_cols columns rows]. rewrite Hopen.
  destruct (take 5 (columns t)) as [|c cs] eqn:Htake.
  { apply (f_equal length) in Htake. rewrite length_take in Htake.
    cbn [length] in Htake. lia. }
  rewrite <- Htake in Hfree. clear c cs Htake.
  eexists _, _. split; [reflexivity|]. split.
  { cbn [set_file fs]. apply lookup_insert_eq. }
  exists (drop_seen [] (take 5 <$> rows t)).
  unfold setitem. cbn [drop_duplicates iloc_cols columns rows].
  rewrite bool_decide_eq_false_2 by exact Hfree. cbn [columns rows].
  split; [reflexivity|].
  split; [apply (zip_with_replicate (λ r v, r ++ [v]))|].
  split; [apply NoDup_drop_seen|]. split; [|split].
  - intros r. rewrite elem_of_drop_seen.
    split; [intros [Hr _]; exact Hr|].
    intros Hr. split; [exact Hr|apply not_elem_of_nil].
  - intros r Hr. apply elem_of_drop_seen in Hr as [Hr _].
    apply list_elem_of_fmap in Hr as (r0 & -> & Hr0).
    unfold wf_frame in Hwf. rewrite Forall_forall in Hwf.
    specialize (Hwf r0 Hr0). rewrite length_take. lia.
  - pose proof (length_drop_seen [] (take 5 <$> rows t)) as Hlen.
    rewrite length_fmap in Hlen. unfold duplicates. lia.
Qed.

Lemma prepare_cgi_query_file_writes_witness :
  prepare_writes slow (disk [("variants.tsv", TSV variants)])
    "variants.tsv" "sample1" variants
  ∧ prepare_cgi_query_file "variants.tsv" "sample1" slow
      (disk [("variants.tsv", TSV variants)])
    = (Ret "sample1.cgi_input.tsv",
       set_file "sample1.cgi_input.tsv" (TSV upload)
         (disk [("variants.tsv", TSV variants)]))
  ∧ duplicates (take 5 <$> rows variants) = 1%nat.
Proof.
  split; [|split; vm_compute; reflexivity].
  apply (prepare_cgi_query_file_writes slow
           (disk [("variants.tsv", TSV variants)]) "variants.tsv" "sample1" variants).
  - reflexivity.
  - repeat constructor.
  - cbn. lia.
  - cbn. intros H. repeat (apply elem_of_cons in H as [H|H]; [discriminate H|]).
    apply elem_of_nil in H. exact H.
  - reflexivity.
Defined.

(** A table whose third column is already labelled SAMPLE: the preparer
    overwrites that column with the sample name and writes five columns. *)
Lemma sample_column_overwritten :
  fs (disk [("variants.tsv", TSV labelled)]) !! "variants.tsv" = Some (TSV labelled) ∧
  wf_frame labelled ∧
  (5 ≤ length (columns labelled))%nat ∧
  prepare_cgi_query_file "variants.tsv" "sample1" (service [])
    (disk [("variants.tsv", TSV labelled)])
  = (Ret "sample1.cgi_input.tsv",
     set_file "sample1.cgi_input.tsv"
       (TSV {| columns := ["CHROM"; "POS"; "SAMPLE"; "REF"; "ALT"];
               rows := [[CStr "chr1"; CInt 100; CStr "sample1"; CStr "A"; CStr "T"]] |})
       (disk [("variants.tsv", TSV labelled)])) ∧
  ¬ prepare_writes (service []) (disk [("variants.tsv", TSV labelled)])
      "variants.tsv" "sample1" labelled.
Proof.
  split; [reflexivity|]. split; [repeat constructor|]. split; [cbn; lia|].
  split; [vm_compute; reflexivity|].
  intros (s' & out & Hrun & Hout & kept & Hcols & _).
  vm_compute in Hrun. injection Hrun as <-.
  vm_compute in Hout. injection Hout as <-.
  discriminate Hcols.
Qed.

(** * Further properties of the code *)

(** ** The poller, beyond its ceiling *)

Lemma requests_in_app evs1 evs2 :
  requests_in (evs1 ++ evs2) = (requests_in evs1 + requests_in evs2)%nat.
Proof.
  induction evs1 as [|ev evs1 IH]; [reflexivity|].
  cbn [app requests_in foldr]. fold (requests_in (evs1 ++ evs2)).
  fold (requests_in evs1). rewrite IH. destruct ev; reflexivity.
Qed.

Lemma slept_app evs1 evs2 : slept (evs1 ++ evs2) = slept evs1 + slept evs2.
Proof.
  induction evs1 as [|ev evs1 IH]; [reflexivity|].
  cbn [app slept foldr]. fold (slept (evs1 ++ evs2)). fold (slept evs1).
  rewrite IH. destruct ev; lia.
Qed.

(** The loop sleeps and polls until a fetched log holds the marker. *)
Lemma poll_loop_finishes url headers e (k : nat) fuel counter doc lines s :
  0 ≤ counter → counter + Z.of_nat k < 5 → (S k < fuel)%nat →
  log_of doc lines → ¬ marker_in lines →
  (∀ j rq, (j < k)%nat → pending (net e (nreq s + j) rq)) →
  (∀ rq, finished (net e (nreq s + k) rq)) →
  poll_loop fuel url headers [("action", "logs")] counter doc e s
  = (Ret (),
     after (concat (replicate (S k)
              [EvSleep 60; EvRequest requests_api (poll_request url headers)]))
           (S k) s).
Proof.
  revert fuel counter doc lines s.
  induction k as [|k IH]; intros fuel counter doc lines s Hc0 Hc Hfuel Hdoc Hno Hnet Hfin;
    (destruct fuel as [|fuel]; [lia|]);
    rewrite (poll_loop_again _ _ _ _ _ _ _ _ Hdoc (not_marker_in _ Hno)) by lia;
    cbv zeta.
  - destruct (Hfin (poll_request url headers)) as
      (r & doc' & lines' & Hr & Hst & Hbody & Hdoc' & Hin').
    rewrite Nat.add_0_r in Hr. rewrite Hr, Hst, Hbody.
    destruct fuel as [|fuel]; [lia|].
    apply (poll_loop_done _ _ _ _ _ _ _ _ _ Hdoc').
    apply contains_spec. exact Hin'.
  - destruct (Hnet 0%nat (poll_request url headers)) as
      (r & doc' & lines' & Hr & Hst & Hbody & Hdoc' & Hno'); [lia|].
    rewrite Nat.add_0_r in Hr. rewrite Hr, Hst, Hbody.
    rewrite (IH fuel (counter + 1) doc' lines'); try assumption; try lia.
    + rewrite after_after. reflexivity.
    + intros j rq Hj. cbn [after nreq].
      replace (nreq s + 1 + j)%nat with (nreq s + S j)%nat by lia.
      apply Hnet. lia.
    + intros rq. cbn [after nreq].
      replace (nreq s + 1 + k)%nat with (nreq s + S k)%nat by lia.
      apply Hfin.
Qed.

(** X1. When the marker first shows up in the log fetched by the [n]-th
    retry ([n] at most 5, 0 for the initial poll), [status_done] returns
    [True] after exactly [n] sleeps of 60 and [n + 1] polls, and prints no
    complaint: the marker is looked for before the counter is. *)
Theorem status_done_finishes (n : nat) url headers e s :
  (n ≤ 5)%nat →
  (∀ j rq, (j < n)%nat → pending (net e (nreq s + j) rq)) →
  (∀ rq, finished (net e (nreq s + n) rq)) →
  let poll := EvRequest requests_api (poll_request url headers) in
  status_done url headers e s
  = (Ret true,
     after ([mount_retry; poll] ++ concat (replicate n [EvSleep 60; poll]))
           (S n) s).
Proof.
  intros Hn Hnet Hfin poll. unfold status_done.
  rewrite status_done_fuel_unfold. cbv zeta.
  destruct n as [|k].
  - destruct (Hfin (poll_request url headers)) as
      (r & doc & lines & Hr & _ & Hbody & Hdoc & Hin).
    rewrite Nat.add_0_r in Hr. rewrite Hr, Hbody.
    rewrite (poll_loop_done _ _ _ _ _ _ _ _ _ Hdoc)
      by (apply contains_spec; exact Hin).
    reflexivity.
  - destruct (Hnet 0%nat (poll_request url headers)) as
      (r & doc & lines & Hr & _ & Hbody & Hdoc & Hno); [lia|].
    rewrite Nat.add_0_r in Hr. rewrite Hr, Hbody.
    rewrite (poll_loop_finishes url headers e k 6 0 doc lines);
      try assumption; try lia.
    + rewrite after_after. reflexivity.
    + intros j rq Hj. cbn [after nreq].
      replace (nreq s + 1 + j)%nat with (nreq s + S j)%nat by lia.
      apply Hnet. lia.
    + intros rq. cbn [after nreq].
      replace (nreq s + 1 + k)%nat with (nreq s + S k)%nat by lia.
      apply Hfin.
Qed.

Lemma log_reply_pending (lines : list string) :
  ¬ marker_in lines → pending (log_reply lines).
Proof.
  intros Hno. eexists _, _, lines.
  split; [reflexivity|]. split; [reflexivity|]. split; [reflexivity|].
  split; [|exact Hno]. eexists. split; reflexivity.
Qed.

Lemma log_reply_finished (lines : list string) :
  marker_in lines → finished (log_reply lines).
Proof.
  intros Hin. eexists _, _, lines.
  split; [reflexivity|]. split; [reflexivity|]. split; [reflexivity|].
  split; [|exact Hin]. eexists. split; reflexivity.
Qed.

Lemma status_done_finishes_witness :
  status_done job_url [] late (disk [])
  = (Ret true,
     after ([mount_retry; EvRequest requests_api (poll_request job_url [])]
            ++ concat (replicate 5
                 [EvSleep 60; EvRequest requests_api (poll_request job_url [])]))
           6 (disk [])).
Proof.
  apply (status_done_finishes 5 job_url [] late (disk [])).
  - lia.
  - intros j rq Hj.
    do 5 (destruct j as [|j]; [apply log_reply_pending, still_waiting|]). lia.
  - intros rq. apply log_reply_finished.
    exists "Annotating variants", "". reflexivity.
Defined.

Ltac poller_events :=
  repeat (constructor; [unfold poller_event; auto 6|]); try constructor.

(** What a run of the loop adds to the world, whatever the service does. *)
Lemma poll_loop_bounded url headers e fuel counter doc s :
  0 ≤ counter ≤ 5 →
  fs (poll_loop fuel url headers [("action", "logs")] counter doc e s).2 = fs s ∧
  ∃ evs,
    events (poll_loop fuel url headers [("action", "logs")] counter doc e s).2
    = events s ++ evs ∧
    nreq (poll_loop fuel url headers [("action", "logs")] counter doc e s).2
    = (nreq s + requests_in evs)%nat ∧
    (requests_in evs ≤ Z.to_nat (5 - counter))%nat ∧
    slept evs = 60 * Z.of_nat (requests_in evs) ∧
    Forall (poller_event url headers) evs.
Proof.
  revert counter doc s. induction fuel as [|fuel IH]; intros counter doc s Hc.
  { split; [reflexivity|]. exists []. cbn. rewrite app_nil_r, Nat.add_0_r.
    repeat split; try lia. constructor. }
  rewrite poll_loop_unfold.
  assert (Hnil : fs s = fs s ∧ ∃ evs, events s = events s ++ evs ∧
            nreq s = (nreq s + requests_in evs)%nat ∧
            (requests_in evs ≤ Z.to_nat (5 - counter))%nat ∧
            slept evs = 60 * Z.of_nat (requests_in evs) ∧
            Forall (poller_event url headers) evs).
  { split; [reflexivity|]. exists []. cbn. rewrite app_nil_r, Nat.add_0_r.
    repeat split; try lia. constructor. }
  destruct (not_done doc e s).1 as [[|]| |]; try exact Hnil.
  destruct (counter =? 5) eqn:H5.
  { split; [reflexivity|]. exists [too_long]. cbn.
    repeat split; try lia. poller_events. }
  apply Z.eqb_neq in H5. cbv zeta.
  fold (poll_request url headers).
  set (new := [EvSleep 60; EvRequest requests_api (poll_request url headers)]).
  assert (Hnew : fs (after new 1 s) = fs s ∧ ∃ evs,
            events (after new 1 s) = events s ++ evs ∧
            nreq (after new 1 s) = (nreq s + requests_in evs)%nat ∧
            (requests_in evs ≤ Z.to_nat (5 - counter))%nat ∧
            slept evs = 60 * Z.of_nat (requests_in evs) ∧
            Forall (poller_event url headers) evs).
  { split; [reflexivity|]. exists new. cbn.
    repeat split; try lia. poller_events. }
  destruct (net e (nreq s) _) as [r|x]; [|exact Hnew].
  destruct (is_error_status (status_code r)); [exact Hnew|].
  destruct (body_json r) as [doc'|]; [|exact Hnew].
  destruct (IH (counter + 1) doc' (after new 1 s)) as
    (Hfs & evs & Hev & Hn & Hle & Hsl & Hall); [lia|].
  split; [rewrite Hfs; reflexivity|].
  exists (new ++ evs). rewrite requests_in_app, slept_app.
  change (requests_in new) with 1%nat. change (slept new) with 60.
  split; [rewrite Hev; cbn [after events]; rewrite <- app_assoc; reflexivity|].
  split; [rewrite Hn; cbn [after nreq]; lia|].
  split; [lia|]. split; [lia|].
  apply Forall_app. split; [|exact Hall]. poller_events.
Qed.

(** X2. Whatever the service answers, [status_done] comes to an end, and
    however it ends it has sent at least one and at most six requests, each
    of them the same poll (GET with action=logs and timeout 5, through
    [requests.get]), has slept 60 before every request but the first, so 300
    at most, and has left the file system as it was. *)
Theorem status_done_bounded url headers e s :
  (status_done url headers e s).1 ≠ NoFuel ∧
  fs (status_done url headers e s).2 = fs s ∧
  ∃ evs,
    events (status_done url headers e s).2 = events s ++ evs ∧
    nreq (status_done url headers e s).2 = (nreq s + requests_in evs)%nat ∧
    (1 ≤ requests_in evs ≤ 6)%nat ∧
    slept evs = 60 * (Z.of_nat (requests_in evs) - 1) ∧
    slept evs ≤ 300 ∧
    Forall (poller_event url headers) evs.
Proof.
  split; [apply (status_done_fuel_enough url headers e 6 s); lia|].
  unfold status_done. rewrite status_done_fuel_unfold. cbv zeta.
  set (first := [mount_retry; EvRequest requests_api (poll_request url headers)]).
  assert (Hfirst : Forall (poller_event url headers) first)
    by poller_events.
  assert (Hstop : fs (after first 1 s) = fs s ∧ ∃ evs,
            events (after first 1 s) = events s ++ evs ∧
            nreq (after first 1 s) = (nreq s + requests_in evs)%nat ∧
            (1 ≤ requests_in evs ≤ 6)%nat ∧
            slept evs = 60 * (Z.of_nat (requests_in evs) - 1) ∧
            slept evs ≤ 300 ∧
            Forall (poller_event url headers) evs).
  { split; [reflexivity|]. exists first. cbn. repeat split; try lia. exact Hfirst. }
  destruct (net e (nreq s) _) as [r|x]; [|exact Hstop].
  destruct (body_json r) as [doc|]; [|exact Hstop].
  destruct (poll_loop_bounded url headers e 6 0 doc (after first 1 s)) as
    (Hfs & evs & Hev & Hn & Hle & Hsl & Hall); [lia|].
  assert (Hgoal : ∀ s', fs s' = fs (after first 1 s) →
            events s' = events (after first 1 s) ++ evs →
            nreq s' = (nreq (after first 1 s) + requests_in evs)%nat →
            fs s' = fs s ∧ ∃ evs',
              events s' = events s ++ evs' ∧
              nreq s' = (nreq s + requests_in evs')%nat ∧
              (1 ≤ requests_in evs' ≤ 6)%nat ∧
              slept evs' = 60 * (Z.of_nat (requests_in evs') - 1) ∧
              slept evs' ≤ 300 ∧
              Forall (poller_event url headers) evs').
  { intros s' Hfs' Hev' Hn'. split; [rewrite Hfs'; reflexivity|].
    exists (first ++ evs). rewrite requests_in_app, slept_app.
    change (requests_in first) with 1%nat. change (slept first) with 0.
    change (Z.to_nat (5 - 0)) with 5%nat in Hle.
    split; [rewrite Hev'; cbn [after events]; rewrite <- app_assoc; reflexivity|].
    split; [rewrite Hn'; cbn [after nreq]; lia|].
    split; [lia|]. split; [lia|]. split; [lia|].
    apply Forall_app. split; assumption. }
  destruct (poll_loop 6 _ _ _ _ _ _ _) as [[| |] s']; cbn [snd] in *;
    apply Hgoal; assumption.
Qed.

(** X3. The status code of the first poll is never looked at: an answer
    whose body is a log with the marker makes [status_done] return [True]
    after that single request, whatever the status, 4xx and 5xx included. *)
Theorem first_poll_status_unchecked url headers e s r doc lines :
  net e (nreq s) (poll_request url headers) = Answer r →
  body_json r = Some doc → log_of doc lines → marker_in lines →
  status_done url headers e s
  = (Ret true,
     after [mount_retry; EvRequest requests_api (poll_request url headers)] 1 s).
Proof.
  intros Hnet Hbody Hdoc Hin. unfold status_done.
  rewrite status_done_fuel_unfold. cbv zeta. rewrite Hnet, Hbody.
  rewrite (poll_loop_done _ _ _ _ _ _ _ _ _ Hdoc)
    by (apply contains_spec; exact Hin).
  reflexivity.
Qed.

Lemma first_poll_status_unchecked_witness :
  status_done job_url []
    (service [answer 500 (Some (JObj [("logs", JArr [JStr "Analysis done"])])) ""])
    (disk [])
  = (Ret true,
     after [mount_retry; EvRequest requests_api (poll_request job_url [])] 1 (disk [])).
Proof.
  apply (first_poll_status_unchecked job_url []
           (service [answer 500 (Some (JObj [("logs", JArr [JStr "Analysis done"])])) ""])
           (disk [])
           {| status_code := 500;
              body_json := Some (JObj [("logs", JArr [JStr "Analysis done"])]);
              _content := "" |}
           (JObj [("logs", JArr [JStr "Analysis done"])]) ["Analysis done"]).
  - reflexivity.
  - reflexivity.
  - eexists. split; reflexivity.
  - exists "", "". reflexivity.
Defined.

(** X4. On a retry poll only [HTTPError] becomes [SystemExit].  Any other
    exception of the request (connection error, timeout, ...) and the
    [JSONDecodeError] of a body that is not JSON leave [status_done] as they
    are, like the failures of the first poll. *)
Theorem retry_poll_failures url headers e s r doc lines :
  net e (nreq s) (poll_request url headers) = Answer r →
  body_json r = Some doc → log_of doc lines → ¬ marker_in lines →
  let poll := EvRequest requests_api (poll_request url headers) in
  let s2 := after [mount_retry; poll; EvSleep 60; poll] 2 s in
  (∀ x, net e (S (nreq s)) (poll_request url headers) = Fails x →
        status_done url headers e s
        = (Raise (if is_HTTPError x then SystemExit x else Exc x), s2)) ∧
  (∀ r', net e (S (nreq s)) (poll_request url headers) = Answer r' →
         is_error_status (status_code r') = false → body_json r' = None →
         status_done url headers e s = (Raise (Exc JSONDecodeError), s2)).
Proof.
  intros Hnet Hbody Hdoc Hno poll s2.
  assert (Hrun : status_done url headers e s
    = let s1 := after [mount_retry; poll] 1 s in
      match net e (S (nreq s)) (poll_request url headers) with
      | Fails x => (Raise (if is_HTTPError x then SystemExit x else Exc x), s2)
      | Answer r' =>
          if is_error_status (status_code r')
          then (Raise (SystemExit (HTTPError (status_code r'))), s2)
          else match body_json r' with
               | None => (Raise (Exc JSONDecodeError), s2)
               | Some doc' =>
                   match poll_loop 5 url headers [("action", "logs")] 1 doc' e s2 with
                   | (Ret _, s') => (Ret true, s')
                   | (Raise x, s') => (Raise x, s')
                   | (NoFuel, s') => (NoFuel, s')
                   end
               end
      end).
  { unfold status_done. rewrite status_done_fuel_unfold. cbv zeta.
    rewrite Hnet, Hbody.
    rewrite (poll_loop_again _ _ _ _ _ _ _ _ Hdoc (not_marker_in _ Hno)) by lia.
    cbv zeta. rewrite after_after. cbn [app Nat.add after nreq].
    replace (nreq s + 1)%nat with (S (nreq s)) by lia.
    fold poll. change (after [mount_retry; poll; EvSleep 60; poll] 2 s) with s2.
    destruct (net e (S (nreq s)) _) as [r'|x]; [|reflexivity].
    destruct (is_error_status (status_code r')); [reflexivity|].
    destruct (body_json r'); reflexivity. }
  split.
  - intros x Hx. rewrite Hrun. cbv zeta. rewrite Hx. reflexivity.
  - intros r' Hr' Hst Hb. rewrite Hrun. cbv zeta. rewrite Hr', Hst, Hb.
    reflexivity.
Qed.

Lemma retry_poll_failures_witness :
  status_done job_url [] (service [log_reply ["Annotating variants"]]) (disk [])
  = (Raise (Exc ConnectionError),
     after [mount_retry; EvRequest requests_api (poll_request job_url []);
            EvSleep 60; EvRequest requests_api (poll_request job_url [])] 2 (disk []))
  ∧ status_done job_url []
      (service [log_reply ["Annotating variants"]; answer 200 None "<html>"])
      (disk [])
  = (Raise (Exc JSONDecodeError),
     after [mount_retry; EvRequest requests_api (poll_request job_url []);
            EvSleep 60; EvRequest requests_api (poll_request job_url [])] 2 (disk [])).
Proof.
  split.
  - apply (proj1 (retry_poll_failures job_url []
             (service [log_reply ["Annotating variants"]]) (disk [])
             {| status_code := 200; body_json := Some waiting; _content := "" |}
             waiting ["Annotating variants"]
             eq_refl eq_refl
             (ex_intro _ _ (conj eq_refl eq_refl)) still_waiting)
             ConnectionError).
    reflexivity.
  - apply (proj2 (retry_poll_failures job_url []
             (service [log_reply ["Annotating variants"]; answer 200 None "<html>"])
             (disk [])
             {| status_code := 200; body_json := Some waiting; _content := "" |}
             waiting ["Annotating variants"]
             eq_refl eq_refl
             (ex_intro _ _ (conj eq_refl eq_refl)) still_waiting)
             {| status_code := 200; body_json := None; _content := "<html>" |});
      reflexivity.
Defined.

Lemma string_app_assoc (a b c : string) : (a +:+ b) +:+ c = a +:+ b +:+ c.
Proof.
  induction a as [|x a IH]; [reflexivity|].
  change (String x ((a +:+ b) +:+ c) = String x (a +:+ b +:+ c)).
  rewrite IH. reflexivity.
Qed.

Lemma join_app (l1 l2 : list string) : join (l1 ++ l2) = join l1 +:+ join l2.
Proof.
  induction l1 as [|x l1 IH]; [reflexivity|].
  cbn [app join foldr]. fold (join (l1 ++ l2)). fold (join l1).
  rewrite IH, string_app_assoc. reflexivity.
Qed.

Lemma marker_in_line (lines : list string) (line : string) :
  line ∈ lines → contains marker line = true → marker_in lines.
Proof.
  intros Hline Hin. apply contains_spec in Hin as (p & q & ->).
  apply list_elem_of_split in Hline as (l1 & l2 & ->).
  exists (join l1 +:+ p), (q +:+ join l2).
  rewrite join_app. cbn [join foldr]. fold (join l2).
  rewrite !string_app_assoc. reflexivity.
Qed.

(** X5. The marker test reads the lines of the log glued together without
    separator: a log one of whose lines holds the marker ends the polling at
    once, also when the counter already stands at 5; and two logs with the
    same concatenation (the marker may run over a line break) are treated
    alike. *)
Theorem marker_test_on_concatenation url headers payload fuel counter e s doc lines :
  log_of doc lines →
  (∀ line, line ∈ lines → contains marker line = true →
     poll_loop (S fuel) url headers payload counter doc e s = (Ret (), s)) ∧
  (∀ doc' lines', log_of doc' lines' → join lines' = join lines →
     poll_loop (S fuel) url headers payload counter doc' e s
     = poll_loop (S fuel) url headers payload counter doc e s).
Proof.
  intros Hdoc. split.
  - intros line Hline Hin.
    apply (poll_loop_done _ _ _ _ _ _ _ _ _ Hdoc).
    apply contains_spec. apply (marker_in_line lines line Hline Hin).
  - intros doc' lines' Hdoc' Hjoin.
    rewrite !poll_loop_unfold.
    rewrite (not_done_log _ _ _ _ Hdoc), (not_done_log _ _ _ _ Hdoc'), Hjoin.
    reflexivity.
Qed.

Lemma marker_test_on_concatenation_witness :
  poll_loop 1 job_url [] [("action", "logs")] 5
    (JObj [("logs", JArr (JStr <$> ["Annotating"; "Analysis done."]))])
    slow (disk [])
  = (Ret (), disk [])
  ∧ poll_loop 1 job_url [] [("action", "logs")] 5
      (JObj [("logs", JArr (JStr <$> ["Annotating"; "Analysis"; " done."]))])
      slow (disk [])
  = poll_loop 1 job_url [] [("action", "logs")] 5
      (JObj [("logs", JArr (JStr <$> ["Annotating"; "Analysis done."]))])
      slow (disk []).
Proof.
  split.
  - apply (proj1 (marker_test_on_concatenation job_url [] [("action", "logs")] 0 5
                    slow (disk [])
                    (JObj [("logs", JArr (JStr <$> ["Annotating"; "Analysis done."]))])
                    ["Annotating"; "Analysis done."]
                    (ex_intro _ _ (conj eq_refl eq_refl)))
             "Analysis done.").
    + right. left.
    + reflexivity.
  - apply (proj2 (marker_test_on_concatenation job_url [] [("action", "logs")] 0 5
                    slow (disk [])
                    (JObj [("logs", JArr (JStr <$> ["Annotating"; "Analysis done."]))])
                    ["Annotating"; "Analysis done."]
                    (ex_intro _ _ (conj eq_refl eq_refl)))
             (JObj [("logs", JArr (JStr <$> ["Annotating"; "Analysis"; " done."]))])
             ["Annotating"; "Analysis"; " done."]).
    + eexists. split; reflexivity.
    + reflexivity.
Defined.

(** ** The submitter and the job URL *)

(** X6. [hg_assembly] is idempotent, and what it returns is never one of
    the two aliases: the reference sent to the service is never "GRCh37" or
    "GRCh38". *)
Theorem hg_assembly_idempotent (genome : string) :
  hg_assembly (hg_assembly genome) = hg_assembly genome ∧
  hg_assembly genome ≠ "GRCh37" ∧ hg_assembly genome ≠ "GRCh38".
Proof.
  destruct (String.eqb_spec genome "GRCh37") as [->|H37];
    [cbn; split; [reflexivity|split; discriminate]|].
  destruct (String.eqb_spec genome "GRCh38") as [->|H38];
    [cbn; split; [reflexivity|split; discriminate]|].
  assert (Hid : hg_assembly genome = genome).
  { unfold hg_assembly. apply String.eqb_neq in H37, H38.
    rewrite H37, H38. reflexivity. }
  rewrite !Hid. split; [reflexivity|split; assumption].
Qed.

Lemma length_substring (k : nat) (s : string) :
  String.length (String.substring 0 k s) = (k `min` String.length s)%nat.
Proof.
  revert k. induction s as [|c s IH]; intros [|k]; cbn; try reflexivity.
  rewrite IH. reflexivity.
Qed.

Lemma substring_split (k : nat) (s : string) :
  ∃ tail, s = String.substring 0 k s +:+ tail.
Proof.
  revert k. induction s as [|c s IH]; intros [|k].
  - exists "". reflexivity.
  - exists "". reflexivity.
  - exists (String c s). reflexivity.
  - destruct (IH k) as [tail Htail]. exists tail.
    cbn [String.substring].
    change (String c s = String c (String.substring 0 k s +:+ tail)).
    rewrite <- Htail. reflexivity.
Qed.

(** X7. [url[:-20]] cuts at the end only: the URL is what is kept followed
    by what is cut, and what is cut has 20 characters, or all of the URL
    when it is shorter; a URL of at most 20 characters leaves nothing. *)
Theorem drop_last_splits (n : nat) (url : string) :
  (∃ tail, url = drop_last n url +:+ tail ∧
           String.length tail = (n `min` String.length url)%nat) ∧
  String.length (drop_last n url) = (String.length url - n)%nat ∧
  ((String.length url ≤ n)%nat → drop_last n url = "").
Proof.
  assert (Hlen : String.length (drop_last n url) = (String.length url - n)%nat).
  { unfold drop_last. rewrite length_substring. lia. }
  split; [|split; [exact Hlen|]].
  - destruct (substring_split (String.length url - n) url) as [tail Htail].
    exists tail. split; [exact Htail|].
    apply (f_equal String.length) in Htail.
    rewrite length_app_string in Htail. fold (drop_last n url) in Htail.
    rewrite Hlen in Htail. lia.
  - intros Hshort. destruct (drop_last n url) eqn:Hd; [reflexivity|].
    cbn in Hlen. lia.
Qed.

Lemma drop_last_splits_witness : drop_last 20 "https://cgi.org/v1/" = "".
Proof.
  apply (proj2 (proj2 (drop_last_splits 20 "https://cgi.org/v1/"))).
  cbn. lia.
Defined.



(** X9. Only an [HTTPError] of the submission ends in [SystemExit].  A
    missing upload file is a [FileNotFoundError] raised before any request
    is sent; another exception of the request, a body that is not JSON
    ([JSONDecodeError]) and a JSON body that is not a string ([TypeError])
    leave [submit_query_cgi] as they are.  In no case is a second request
    sent or a file touched. *)
Theorem submission_failures input genome cancer headers e s :
  let told := after [EvInfo "Querying REST API"] 0 s in
  (fs s !! input = None →
     submit_query_cgi input genome cancer headers e s
     = (Raise (Exc (FileNotFoundError input)), told)) ∧
  (∀ f, fs s !! input = Some f →
     let rq := submit_request f genome cancer headers in
     let sent := after [EvInfo "Querying REST API"; EvRequest requests_api rq] 1 s in
     (∀ x, net e (nreq s) rq = Fails x → is_HTTPError x = false →
           submit_query_cgi input genome cancer headers e s = (Raise (Exc x), sent)) ∧
     (∀ r, net e (nreq s) rq = Answer r →
           is_error_status (status_code r) = false → body_json r = None →
           submit_query_cgi input genome cancer headers e s
           = (Raise (Exc JSONDecodeError), sent)) ∧
     (∀ r j, net e (nreq s) rq = Answer r →
           is_error_status (status_code r) = false → body_json r = Some j →
           (∀ job_id, j ≠ JStr job_id) →
           submit_query_cgi input genome cancer headers e s
           = (Raise (Exc TypeError), sent))) ∧
  fs (submit_query_cgi input genome cancer headers e s).2 = fs s ∧
  (nreq (submit_query_cgi input genome cancer headers e s).2 ≤ S (nreq s))%nat.
Proof.
  intros told. rewrite submit_query_cgi_unfold.
  split; [|split; [|split]].
  - intros ->. reflexivity.
  - intros f ->. cbv zeta. split; [|split].
    + intros x -> Hx. rewrite Hx. reflexivity.
    + intros r -> -> ->. reflexivity.
    + intros r j -> -> -> Hj.
      destruct j as [| | |job_id| |]; try reflexivity.
      exfalso. apply (Hj job_id). reflexivity.
  - destruct (fs s !! input) as [f|]; [|reflexivity]. cbv zeta.
    destruct (net e (nreq s) _) as [r|x]; [|reflexivity].
    destruct (is_error_status (status_code r)); [reflexivity|].
    destruct (body_json r) as [[| | | | |]|]; reflexivity.
  - destruct (fs s !! input) as [f|]; [|cbn; lia]. cbv zeta.
    destruct (net e (nreq s) _) as [r|x]; [|cbn; lia].
    destruct (is_error_status (status_code r)); [cbn; lia|].
    destruct (body_json r) as [[| | | | |]|]; cbn; lia.
Qed.

Lemma submission_failures_witness :
  submit_query_cgi "sample1.cgi_input.tsv" "GRCh38" brca [] slow (disk [])
  = (Raise (Exc (FileNotFoundError "sample1.cgi_input.tsv")),
     after [EvInfo "Querying REST API"] 0 (disk []))
  ∧ submit_query_cgi "sample1.cgi_input.tsv" "GRCh38" brca []
      (service [answer 200 (Some (JObj [("id", JStr job)])) ""])
      (disk [("sample1.cgi_input.tsv", TSV upload)])
  = (Raise (Exc TypeError),
     after [EvInfo "Querying REST API";
            EvRequest requests_api (submit_request (TSV upload) "GRCh38" brca [])] 1
       (disk [("sample1.cgi_input.tsv", TSV upload)])).
Proof.
  split.
  - apply (proj1 (submission_failures "sample1.cgi_input.tsv" "GRCh38" brca []
                    slow (disk []))).
    reflexivity.
  - apply (proj2 (proj2 (proj1 (proj2 (submission_failures
             "sample1.cgi_input.tsv" "GRCh38" brca []
             (service [answer 200 (Some (JObj [("id", JStr job)])) ""])
             (disk [("sample1.cgi_input.tsv", TSV upload)]))) (TSV upload) eq_refl))
           {| status_code := 200; body_json := Some (JObj [("id", JStr job)]);
              _content := "" |}
           (JObj [("id", JStr job)])).
    + reflexivity.
    + reflexivity.
    + reflexivity.
    + intros job_id. discriminate.
Defined.

(** ** The result fetcher: what lands on disk *)

(** X10. Whatever the service and the operating system do, [download_cgi]
    sends exactly one request, prints at most its one complaint, and leaves
    every file other than the archive as it was. *)
Theorem download_cgi_frame url headers output e s :
  let s' := (download_cgi url headers output e s).2 in
  let sent := EvRequest requests_api (download_request url headers) in
  nreq s' = S (nreq s) ∧
  (events s' = events s ++ [sent] ∨ events s' = events s ++ [sent; oops]) ∧
  (∀ path, path ≠ output +:+ ".cgi_results.zip" → fs s' !! path = fs s !! path).
Proof.
  rewrite download_cgi_unfold. cbv zeta.
  assert (Hfail :
    let s' := after [oops] 0
                (after [EvRequest requests_api (download_request url headers)] 1 s) in
    nreq s' = S (nreq s) ∧
    (events s' = events s ++ [EvRequest requests_api (download_request url headers)] ∨
     events s' = events s ++ [EvRequest requests_api (download_request url headers); oops]) ∧
    (∀ path, path ≠ output +:+ ".cgi_results.zip" → fs s' !! path = fs s !! path)).
  { cbn. split; [lia|]. split; [|reflexivity].
    right. rewrite <- app_assoc. reflexivity. }
  destruct (net e (nreq s) _) as [r|x]; [|exact Hfail].
  destruct (open_w e _); [exact Hfail|].
  destruct (write_w e _ _).
  - cbn. split; [lia|]. split.
    + right. rewrite <- app_assoc. reflexivity.
    + intros path Hpath. apply lookup_insert_ne. congruence.
  - cbn. split; [lia|]. split; [left; reflexivity|].
    intros path Hpath. apply lookup_insert_ne. congruence.
Qed.

Lemma download_cgi_frame_witness :
  fs (download_cgi job_url [] "sample1" (service [answer 200 None "PK"])
        (disk [("variants.tsv", TSV variants)])).2 !! "variants.tsv"
  = Some (TSV variants).
Proof.
  rewrite (proj2 (proj2 (download_cgi_frame job_url [] "sample1"
                           (service [answer 200 None "PK"])
                           (disk [("variants.tsv", TSV variants)])))
             "variants.tsv");
    [reflexivity|discriminate].
Defined.

(** X11. Any answer is saved, whatever its status code (there is no
    [raise_for_status] here): when the file can be opened and written, the
    archive afterwards holds exactly the body of the answer, in place of
    whatever was there, and nothing is printed. *)
Theorem download_cgi_saves_body url headers output e s r :
  let archive := output +:+ ".cgi_results.zip" in
  net e (nreq s) (download_request url headers) = Answer r →
  open_w e archive = None →
  write_w e archive (_content r) = None →
  download_cgi url headers output e s
  = (Ret (),
     set_file archive (Raw (_content r))
       (after [EvRequest requests_api (download_request url headers)] 1 s)).
Proof.
  intros archive Hnet Hopen Hwrite. rewrite download_cgi_unfold. cbv zeta.
  fold archive. rewrite Hnet, Hopen, Hwrite. reflexivity.
Qed.

Lemma download_cgi_saves_body_witness :
  fs (download_cgi job_url [] "sample1"
        (service [answer 404 None "Not Found"])
        (disk [("sample1.cgi_results.zip", Raw "PK")])).2
    !! "sample1.cgi_results.zip"
  = Some (Raw "Not Found").
Proof.
  rewrite (download_cgi_saves_body job_url [] "sample1"
             (service [answer 404 None "Not Found"])
             (disk [("sample1.cgi_results.zip", Raw "PK")])
             {| status_code := 404; body_json := None; _content := "Not Found" |}
             eq_refl eq_refl eq_refl).
  reflexivity.
Defined.




(** The files of an unpacked archive. *)
Lemma extracted_cons dir name data members files :
  extracted dir ((name, data) :: members) files
  = extracted dir members (<[dir +:+ "/" +:+ name := Raw data]> files).
Proof. reflexivity. Qed.

Lemma lookup_extracted_other dir members files path :
  (∀ name, path ≠ dir +:+ "/" +:+ name) →
  extracted dir members files !! path = files !! path.
Proof.
  intros Hpath. revert files.
  induction members as [|[name data] members IH]; intros files; [reflexivity|].
  rewrite extracted_cons, IH. apply lookup_insert_ne. intros H. apply (Hpath name). symmetry.
  exact H.
Qed.




(** The archive is no file of the results directory. *)
Lemma archive_outside_dir output name :
  output +:+ ".cgi_results.zip" ≠ (output +:+ ".cgi_results") +:+ "/" +:+ name.
Proof.
  rewrite string_app_assoc. intros H.
  apply (inj (String.app output)) in H. discriminate H.
Qed.

(** The metadata step when nothing fails. *)
Lemma add_cgi_metadata_runs url output e s b members :
  let dir := output +:+ ".cgi_results" in
  fs s !! (output +:+ ".cgi_results.zip") = Some (Raw b) →
  unzip e b = Some members →
  open_w e (dir +:+ "/metadata.txt") = None →
  (∀ data, write_w e (dir +:+ "/metadata.txt") data = None) →
  add_cgi_metadata url output e s
  = (Ret (),
     {| fs := <[dir +:+ "/metadata.txt" := Raw (metadata_text e url)]>
                (extracted dir members (fs s));
        events := events s; nreq := nreq s |}).
Proof.
  intros dir Harchive Hzip Hopen Hwrite.
  unfold add_cgi_metadata, mbind, M_bind, extractall, date_today, open_write,
    write.
  rewrite Harchive, Hzip. fold dir. rewrite Hopen, !Hwrite.
  unfold set_file. cbn [fs events nreq].
  rewrite !lookup_insert_eq, !insert_insert_eq. reflexivity.
Qed.



(** ** The input preparer on its edges *)

Lemma drop_seen_sublist seen l : drop_seen seen l `sublist_of` l.
Proof.
  revert seen. induction l as [|x l IH]; intros seen; cbn [drop_seen].
  - constructor.
  - case_bool_decide; [apply sublist_cons, IH|apply sublist_skip, IH].
Qed.

Lemma drop_seen_NoDup seen l :
  NoDup l → (∀ r, r ∈ l → r ∉ seen) → drop_seen seen l = l.
Proof.
  revert seen. induction l as [|x l IH]; intros seen Hnodup Hseen;
    cbn [drop_seen]; [reflexivity|].
  apply NoDup_cons in Hnodup as [Hx Hnodup].
  rewrite bool_decide_eq_false_2 by (apply Hseen; left).
  f_equal. apply IH; [exact Hnodup|].
  intros r Hr. rewrite not_elem_of_cons. split.
  - intros ->. contradiction.
  - apply Hseen. right. exact Hr.
Qed.

(** The run of the preparer on a table without label clash. *)
Lemma prepare_cgi_query_file_runs e s input output t :
  fs s !! input = Some (TSV t) →
  columns t ≠ [] →
  "SAMPLE" ∉ take 5 (columns t) →
  open_w e (output +:+ ".cgi_input.tsv") = None →
  prepare_cgi_query_file input output e s
  = (Ret (output +:+ ".cgi_input.tsv"),
     set_file (output +:+ ".cgi_input.tsv")
       (TSV {| columns := take 5 (columns t) ++ ["SAMPLE"];
               rows := (λ r, r ++ [CStr output])
                       <$> drop_seen [] (take 5 <$> rows t) |}) s).
Proof.
  intros Hin Hcols Hfree Hopen.
  rewrite (prepare_cgi_query_file_unfold _ _ _ _ _ Hin). cbv zeta.
  cbn [drop_duplicates iloc_cols columns rows]. rewrite Hopen.
  destruct (take 5 (columns t)) as [|c cs] eqn:Htake.
  { destruct (columns t); [contradiction|discriminate Htake]. }
  rewrite <- Htake in *. clear c cs Htake.
  unfold setitem. cbn [columns rows].
  rewrite bool_decide_eq_false_2 by exact Hfree.
  rewrite (zip_with_replicate (λ r v, r ++ [v])). reflexivity.
Qed.

(** X14. Preparing is idempotent: fed its own output under the same sample
    name, the preparer writes the same file again and changes nothing. *)
Theorem prepare_cgi_query_file_twice e s input output t :
  fs s !! input = Some (TSV t) →
  wf_frame t →
  (5 ≤ length (columns t))%nat →
  "SAMPLE" ∉ take 5 (columns t) →
  open_w e (output +:+ ".cgi_input.tsv") = None →
  ∃ s', prepare_cgi_query_file input output e s
        = (Ret (output +:+ ".cgi_input.tsv"), s') ∧
        prepare_cgi_query_file (output +:+ ".cgi_input.tsv") output e s'
        = (Ret (output +:+ ".cgi_input.tsv"), s').
Proof.
  intros Hin Hwf Hcols Hfree Hopen.
  assert (Hne : columns t ≠ []) by (destruct (columns t); [cbn in Hcols; lia|discriminate]).
  rewrite (prepare_cgi_query_file_runs _ _ _ _ _ Hin Hne Hfree Hopen).
  eexists. split; [reflexivity|].
  set (kept := drop_seen [] (take 5 <$> rows t)).
  set (out := {| columns := take 5 (columns t) ++ ["SAMPLE"];
                 rows := (λ r, r ++ [CStr output]) <$> kept |}).
  assert (Hlen5 : length (take 5 (columns t)) = 5%nat)
    by (rewrite length_take; lia).
  assert (Hcols' : take 5 (columns out) = take 5 (columns t)).
  { cbn [out columns]. rewrite take_app_length'; [reflexivity|symmetry; exact Hlen5]. }
  assert (Hkept5 : ∀ r, r ∈ kept → length r = 5%nat).
  { intros r Hr. apply elem_of_drop_seen in Hr as [Hr _].
    apply list_elem_of_fmap in Hr as (r0 & -> & Hr0).
    unfold wf_frame in Hwf. rewrite Forall_forall in Hwf.
    specialize (Hwf r0 Hr0). rewrite length_take. lia. }
  assert (Hrows' : take 5 <$> rows out = kept).
  { cbn [out rows]. rewrite <- list_fmap_compose.
    rewrite <- (list_fmap_id kept) at 2. apply Forall_fmap_ext_1.
    apply Forall_forall. intros r Hr. cbn.
    rewrite take_app_length'; [reflexivity|].
    symmetry. apply Hkept5. exact Hr. }
  rewrite (prepare_cgi_query_file_runs e _ (output +:+ ".cgi_input.tsv") output out).
  - rewrite Hcols', Hrows'.
    rewrite (drop_seen_NoDup [] kept);
      [|apply NoDup_drop_seen|intros r _; apply not_elem_of_nil].
    fold out. unfold set_file. cbn [fs events nreq].
    rewrite insert_insert_eq. reflexivity.
  - apply lookup_insert_eq.
  - cbn [out columns]. destruct (take 5 (columns t)); discriminate.
  - rewrite Hcols'. exact Hfree.
  - exact Hopen.
Qed.

Lemma prepare_cgi_query_file_twice_witness :
  prepare_cgi_query_file "sample1.cgi_input.tsv" "sample1" slow
    (prepare_cgi_query_file "variants.tsv" "sample1" slow
       (disk [("variants.tsv", TSV variants)])).2
  = (Ret "sample1.cgi_input.tsv",
     (prepare_cgi_query_file "variants.tsv" "sample1" slow
        (disk [("variants.tsv", TSV variants)])).2).
Proof.
  destruct (prepare_cgi_query_file_twice slow
              (disk [("variants.tsv", TSV variants)]) "variants.tsv" "sample1"
              variants)
    as (s' & Hfirst & Hagain).
  - reflexivity.
  - repeat constructor.
  - cbn. lia.
  - cbn. intros H. repeat (apply elem_of_cons in H as [H|H]; [discriminate H|]).
    apply elem_of_nil in H. exact H.
  - reflexivity.
  - rewrite Hfirst. exact Hagain.
Defined.

(** X15. The preparer keeps the rows in the order of the table, each at its
    first occurrence (the first row always stays first), and has no effect
    but the one file it writes: no request, no output, every other file as it
    was. *)
Theorem prepare_keeps_first_occurrences e s input output t :
  fs s !! input = Some (TSV t) →
  columns t ≠ [] →
  "SAMPLE" ∉ take 5 (columns t) →
  open_w e (output +:+ ".cgi_input.tsv") = None →
  ∃ s' out kept,
    prepare_cgi_query_file input output e s
    = (Ret (output +:+ ".cgi_input.tsv"), s') ∧
    fs s' !! (output +:+ ".cgi_input.tsv") = Some (TSV out) ∧
    rows out = (λ r, r ++ [CStr output]) <$> kept ∧
    kept `sublist_of` (take 5 <$> rows t) ∧
    head kept = head (take 5 <$> rows t) ∧
    (∀ path, path ≠ output +:+ ".cgi_input.tsv" → fs s' !! path = fs s !! path) ∧
    events s' = events s ∧ nreq s' = nreq s.
Proof.
  intros Hin Hcols Hfree Hopen.
  rewrite (prepare_cgi_query_file_runs _ _ _ _ _ Hin Hcols Hfree Hopen).
  eexists _, _, (drop_seen [] (take 5 <$> rows t)).
  split; [reflexivity|]. split; [apply lookup_insert_eq|].
  split; [reflexivity|]. split; [apply drop_seen_sublist|].
  split; [|split; [|split; reflexivity]].
  - destruct (take 5 <$> rows t) as [|r l]; [reflexivity|].
    cbn [drop_seen]. rewrite bool_decide_eq_false_2 by apply not_elem_of_nil.
    reflexivity.
  - intros path Hpath. apply lookup_insert_ne. congruence.
Qed.

Lemma prepare_keeps_first_occurrences_witness :
  ∃ s' out kept,
    prepare_cgi_query_file "variants.tsv" "sample1" slow
      (disk [("variants.tsv", TSV variants)])
    = (Ret "sample1.cgi_input.tsv", s') ∧
    fs s' !! "sample1.cgi_input.tsv" = Some (TSV out) ∧
    rows out = (λ r, r ++ [CStr "sample1"]) <$> kept ∧
    kept `sublist_of` (take 5 <$> rows variants) ∧
    fs s' !! "variants.tsv" = Some (TSV variants).
Proof.
  destruct (prepare_keeps_first_occurrences slow
              (disk [("variants.tsv", TSV variants)]) "variants.tsv" "sample1"
              variants)
    as (s' & out & kept & Hrun & Hout & Hrows & Hsub & _ & Hother & _).
  - reflexivity.
  - discriminate.
  - cbn. intros H. repeat (apply elem_of_cons in H as [H|H]; [discriminate H|]).
    apply elem_of_nil in H. exact H.
  - reflexivity.
  - exists s', out, kept. repeat (split; [assumption|]).
    rewrite (Hother "variants.tsv"); [reflexivity|discriminate].
Defined.

(** X16. The five-column precondition is not checked: of a table with
    fewer columns (none of them labelled SAMPLE) all columns are kept, the
    duplicate rows removed and the sample column appended. *)
Theorem prepare_narrow_table e s input output t :
  fs s !! input = Some (TSV t) →
  wf_frame t →
  (0 < length (columns t) < 5)%nat →
  "SAMPLE" ∉ columns t →
  open_w e (output +:+ ".cgi_input.tsv") = None →
  prepare_cgi_query_file input output e s
  = (Ret (output +:+ ".cgi_input.tsv"),
     set_file (output +:+ ".cgi_input.tsv")
       (TSV {| columns := columns t ++ ["SAMPLE"];
               rows := (λ r, r ++ [CStr output]) <$> drop_seen [] (rows t) |}) s).
Proof.
  intros Hin Hwf Hcols Hfree Hopen.
  assert (Htake : take 5 (columns t) = columns t) by (apply take_ge; lia).
  assert (Hrows : take 5 <$> rows t = rows t).
  { rewrite <- (list_fmap_id (rows t)) at 2. apply Forall_fmap_ext_1.
    unfold wf_frame in Hwf. eapply Forall_impl; [exact Hwf|].
    intros r Hr. cbn in *. apply take_ge. lia. }
  rewrite (prepare_cgi_query_file_runs _ _ _ _ t Hin).
  - rewrite Htake, Hrows. reflexivity.
  - destruct (columns t); [cbn in Hcols; lia|discriminate].
  - rewrite Htake. exact Hfree.
  - exact Hopen.
Qed.

Lemma prepare_narrow_table_witness :
  prepare_cgi_query_file "genes.tsv" "sample1" slow
    (disk [("genes.tsv",
            TSV {| columns := ["GENE"; "CHROM"];
                   rows := [[CStr "TP53"; CStr "chr17"]; [CStr "TP53"; CStr "chr17"]] |})])
  = (Ret "sample1.cgi_input.tsv",
     set_file "sample1.cgi_input.tsv"
       (TSV {| columns := ["GENE"; "CHROM"] ++ ["SAMPLE"];
               rows := (λ r, r ++ [CStr "sample1"])
                       <$> drop_seen [] [[CStr "TP53"; CStr "chr17"];
                                         [CStr "TP53"; CStr "chr17"]] |})
       (disk [("genes.tsv",
               TSV {| columns := ["GENE"; "CHROM"];
                      rows := [[CStr "TP53"; CStr "chr17"];
                               [CStr "TP53"; CStr "chr17"]] |})])).
Proof.
  apply (prepare_narrow_table slow _ "genes.tsv" "sample1"
           {| columns := ["GENE"; "CHROM"];
              rows := [[CStr "TP53"; CStr "chr17"]; [CStr "TP53"; CStr "chr17"]] |}).
  - reflexivity.
  - repeat constructor.
  - cbn. lia.
  - cbn. intros H. repeat (apply elem_of_cons in H as [H|H]; [discriminate H|]).
    apply elem_of_nil in H. exact H.
  - reflexivity.
Defined.

(** ** The pipeline from end to end *)

(** X17. When the input preparer fails (the input file is missing, or the
    upload file cannot be written) [query_cgi] raises that exception with
    the world untouched: nothing was logged, no request was sent. *)
Theorem query_cgi_needs_prepared_file input genome cancer headers output e s :
  (fs s !! input = None →
     query_cgi input genome cancer headers output e s
     = (Raise (Exc (FileNotFoundError input)), s)) ∧
  (∀ t x, fs s !! input = Some (TSV t) → columns t ≠ [] →
     open_w e (output +:+ ".cgi_input.tsv") = Some x →
     query_cgi input genome cancer headers output e s = (Raise (Exc x), s)).
Proof.
  split.
  - intros Hin. unfold query_cgi, mbind at 1, M_bind.
    unfold prepare_cgi_query_file, mbind at 1, M_bind, read_csv.
    rewrite Hin. reflexivity.
  - intros t x Hin Hcols Hopen. unfold query_cgi, mbind at 1, M_bind.
    rewrite (prepare_cgi_query_file_unfold _ _ _ _ _ Hin). cbv zeta.
    cbn [drop_duplicates iloc_cols columns]. rewrite Hopen.
    destruct (columns t); [contradiction|reflexivity].
Qed.

Lemma query_cgi_needs_prepared_file_witness :
  query_cgi "variants.tsv" "GRCh38" brca [] "sample1" slow (disk [])
  = (Raise (Exc (FileNotFoundError "variants.tsv")), disk []).
Proof.
  apply (proj1 (query_cgi_needs_prepared_file "variants.tsv" "GRCh38" brca []
                  "sample1" slow (disk []))).
  reflexivity.
Defined.

(** X18. When the poller has returned and neither the download nor the
    disk fails, [query_cgi] returns normally; what it unpacks is the body it
    has just downloaded (an archive of an earlier run is replaced first); the
    archive and the metadata file are on disk afterwards, and after the
    poller the run logs its two messages and sends the one download
    request. *)
Theorem query_cgi_succeeds input genome cancer headers output e
    s0 cgi_file s1 url s2 done s3 r members :
  let archive := output +:+ ".cgi_results.zip" in
  let dir := output +:+ ".cgi_results" in
  prepare_cgi_query_file input output e s0 = (Ret cgi_file, s1) →
  submit_query_cgi cgi_file genome cancer headers e s1 = (Ret url, s2) →
  status_done url headers e s2 = (Ret done, s3) →
  net e (nreq s3) (download_request url headers) = Answer r →
  open_w e archive = None →
  write_w e archive (_content r) = None →
  unzip e (_content r) = Some members →
  open_w e (dir +:+ "/metadata.txt") = None →
  (∀ data, write_w e (dir +:+ "/metadata.txt") data = None) →
  ∃ s', query_cgi input genome cancer headers output e s0 = (Ret (), s') ∧
    fs s' = <[dir +:+ "/metadata.txt" := Raw (metadata_text e url)]>
              (extracted dir members (<[archive := Raw (_content r)]> (fs s3))) ∧
    fs s' !! archive = Some (Raw (_content r)) ∧
    fs s' !! (dir +:+ "/metadata.txt") = Some (Raw (metadata_text e url)) ∧
    events s' = events s3 ++ [EvInfo "CGI Query finished";
                              EvInfo "Downloading CGI results";
                              EvRequest requests_api (download_request url headers)] ∧
    nreq s' = S (nreq s3).
Proof.
  intros archive dir Hprep Hsub Hdone Hnet Hopen Hwrite Hzip Hopen' Hwrite'.
  pose proof (status_done_returns_true _ _ _ _ _ _ Hdone) as ->.
  rewrite (query_cgi_submitted _ _ _ _ _ _ _ _ _ _ _ Hprep Hsub), Hdone.
  unfold mbind, M_bind. rewrite download_cgi_unfold. cbv zeta.
  fold archive. cbn [after nreq]. rewrite Nat.add_0_r, Hnet, Hopen, Hwrite.
  set (s4 := set_file archive _ _).
  assert (Harchive : fs s4 !! archive = Some (Raw (_content r)))
    by apply lookup_insert_eq.
  rewrite (add_cgi_metadata_runs url output e s4 (_content r) members
             Harchive Hzip Hopen' Hwrite').
  fold dir. eexists. split; [reflexivity|]. cbn [fs events nreq].
  split; [reflexivity|]. split; [|split; [apply lookup_insert_eq|split]].
  - rewrite lookup_insert_ne.
    + rewrite lookup_extracted_other; [exact Harchive|].
      intros name. apply archive_outside_dir.
    + intros H. apply (archive_outside_dir output "metadata.txt"). symmetry.
      exact H.
  - unfold s4. cbn [set_file after events]. rewrite <- !app_assoc. reflexivity.
  - unfold s4. cbn [set_file after nreq]. lia.
Qed.

Lemma query_cgi_succeeds_witness :
  ∃ s', query_cgi "variants.tsv" "GRCh38" brca [] "sample1" slow
          (disk [("variants.tsv", TSV variants); ("sample1.cgi_results.zip", Raw "old")])
        = (Ret (), s') ∧
        fs s' !! "sample1.cgi_results.zip" = Some (Raw "PK") ∧
        fs s' !! "sample1.cgi_results/metadata.txt"
        = Some (Raw (metadata_text slow job_url)).
Proof.
  destruct (query_cgi_succeeds "variants.tsv" "GRCh38" brca [] "sample1" slow
    (disk [("variants.tsv", TSV variants); ("sample1.cgi_results.zip", Raw "old")])
    "sample1.cgi_input.tsv"
    (prepare_cgi_query_file "variants.tsv" "sample1" slow
       (disk [("variants.tsv", TSV variants); ("sample1.cgi_results.zip", Raw "old")])).2
    job_url
    (submit_query_cgi "sample1.cgi_input.tsv" "GRCh38" brca [] slow
       (prepare_cgi_query_file "variants.tsv" "sample1" slow
          (disk [("variants.tsv", TSV variants);
                 ("sample1.cgi_results.zip", Raw "old")])).2).2
    true
    (status_done job_url [] slow
       (submit_query_cgi "sample1.cgi_input.tsv" "GRCh38" brca [] slow
          (prepare_cgi_query_file "variants.tsv" "sample1" slow
             (disk [("variants.tsv", TSV variants);
                    ("sample1.cgi_results.zip", Raw "old")])).2).2).2
    {| status_code := 200; body_json := None; _content := "PK" |}
    [("alterations.tsv", "gene")])
    as (s' & Hrun & _ & Harchive & Hmeta & _).
  - vm_compute. reflexivity.
  - vm_compute. reflexivity.
  - vm_compute. reflexivity.
  - vm_compute. reflexivity.
  - reflexivity.
  - reflexivity.
  - reflexivity.
  - reflexivity.
  - reflexivity.
  - exists s'. split; [exact Hrun|]. split; [exact Harchive|exact Hmeta].
Defined.

(** ** The shape of the upload file *)

(** X19. Without a label clash the table written is rectangular and free
    of duplicates: with five or more input columns it has six labels, every
    row has six cells, the last of them the sample name, and no two rows are
    equal. *)
Theorem upload_is_rectangular e s input output t :
  fs s !! input = Some (TSV t) →
  wf_frame t →
  (5 ≤ length (columns t))%nat →
  "SAMPLE" ∉ take 5 (columns t) →
  open_w e (output +:+ ".cgi_input.tsv") = None →
  ∃ s' out,
    prepare_cgi_query_file input output e s
    = (Ret (output +:+ ".cgi_input.tsv"), s') ∧
    fs s' !! (output +:+ ".cgi_input.tsv") = Some (TSV out) ∧
    length (columns out) = 6%nat ∧
    wf_frame out ∧
    Forall (λ r, last r = Some (CStr output)) (rows out) ∧
    NoDup (rows out).
Proof.
  intros Hin Hwf Hcols Hfree Hopen.
  assert (Hne : columns t ≠ [])
    by (destruct (columns t); [cbn in Hcols; lia|discriminate]).
  rewrite (prepare_cgi_query_file_runs _ _ _ _ _ Hin Hne Hfree Hopen).
  eexists _, _. split; [reflexivity|]. split; [apply lookup_insert_eq|].
  cbn [columns rows].
  assert (Hkept5 : ∀ r, r ∈ drop_seen [] (take 5 <$> rows t) → length r = 5%nat).
  { intros r Hr. apply elem_of_drop_seen in Hr as [Hr _].
    apply list_elem_of_fmap in Hr as (r0 & -> & Hr0).
    unfold wf_frame in Hwf. rewrite Forall_forall in Hwf.
    specialize (Hwf r0 Hr0). rewrite length_take. lia. }
  split; [rewrite length_app, length_take; cbn [length]; lia|].
  split; [|split].
  - unfold wf_frame. cbn [columns rows]. apply Forall_fmap, Forall_forall.
    intros r Hr. cbn [compose].
    rewrite !length_app, length_take, (Hkept5 r Hr). cbn [length]. lia.
  - apply Forall_fmap, Forall_forall. intros r _. cbn. apply last_snoc.
  - apply NoDup_fmap_2; [|apply NoDup_drop_seen].
    intros r1 r2 H. apply app_inj_tail in H as [H _]. exact H.
Qed.

Lemma upload_is_rectangular_witness :
  ∃ s' out,
    prepare_cgi_query_file "variants.tsv" "sample1" slow
      (disk [("variants.tsv", TSV variants)])
    = (Ret "sample1.cgi_input.tsv", s') ∧
    fs s' !! "sample1.cgi_input.tsv" = Some (TSV out) ∧
    wf_frame out ∧ NoDup (rows out).
Proof.
  destruct (upload_is_rectangular slow
              (disk [("variants.tsv", TSV variants)]) "variants.tsv" "sample1"
              variants)
    as (s' & out & Hrun & Hout & _ & Hwf & _ & Hnodup).
  - reflexivity.
  - repeat constructor.
  - cbn. lia.
  - cbn. intros H. repeat (apply elem_of_cons in H as [H|H]; [discriminate H|]).
    apply elem_of_nil in H. exact H.
  - reflexivity.
  - exists s', out. repeat split; assumption.
Defined.

(** X20. With a label clash (one of the first five columns is already
    labelled SAMPLE) no column is added: the file has the first five labels,
    and in every row kept by the duplicate removal the cells under the label
    SAMPLE are replaced by the sample name.  The duplicates are removed
    before that, so rows that differed in that column only both stay. *)
Theorem sample_label_clash e s input output t :
  fs s !! input = Some (TSV t) →
  "SAMPLE" ∈ take 5 (columns t) →
  open_w e (output +:+ ".cgi_input.tsv") = None →
  prepare_cgi_query_file input output e s
  = (Ret (output +:+ ".cgi_input.tsv"),
     set_file (output +:+ ".cgi_input.tsv")
       (TSV {| columns := take 5 (columns t);
               rows := set_cell "SAMPLE" (CStr output) (take 5 (columns t))
                       <$> drop_seen [] (take 5 <$> rows t) |}) s).
Proof.
  intros Hin Hclash Hopen.
  rewrite (prepare_cgi_query_file_unfold _ _ _ _ _ Hin). cbv zeta.
  cbn [drop_duplicates iloc_cols columns rows]. rewrite Hopen.
  destruct (take 5 (columns t)) as [|c cs] eqn:Htake; [inversion Hclash|].
  rewrite <- Htake in *. clear c cs Htake.
  unfold setitem. cbn [columns rows].
  rewrite bool_decide_eq_true_2 by exact Hclash.
  rewrite (zip_with_replicate
             (λ r v, set_cell "SAMPLE" v (take 5 (columns t)) r)).
  reflexivity.
Qed.

Lemma sample_label_clash_witness :
  prepare_cgi_query_file "variants.tsv" "sample1" slow
    (disk [("variants.tsv",
            TSV {| columns := ["CHROM"; "POS"; "SAMPLE"; "REF"; "ALT"];
                   rows := [[CStr "chr1"; CInt 100; CStr "tumour"; CStr "A"; CStr "T"];
                            [CStr "chr1"; CInt 100; CStr "normal"; CStr "A"; CStr "T"]] |})])
  = (Ret "sample1.cgi_input.tsv",
     set_file "sample1.cgi_input.tsv"
       (TSV {| columns := ["CHROM"; "POS"; "SAMPLE"; "REF"; "ALT"];
               rows := [[CStr "chr1"; CInt 100; CStr "sample1"; CStr "A"; CStr "T"];
                        [CStr "chr1"; CInt 100; CStr "sample1"; CStr "A"; CStr "T"]] |})
       (disk [("variants.tsv",
          TSV {| columns := ["CHROM"; "POS"; "SAMPLE"; "REF"; "ALT"];
                 rows := [[CStr "chr1"; CInt 100; CStr "tumour"; CStr "A"; CStr "T"];
                          [CStr "chr1"; CInt 100; CStr "normal"; CStr "A"; CStr "T"]] |})])).
Proof.
  rewrite (sample_label_clash slow _ "variants.tsv" "sample1"
             {| columns := ["CHROM"; "POS"; "SAMPLE"; "REF"; "ALT"];
                rows := [[CStr "chr1"; CInt 100; CStr "tumour"; CStr "A"; CStr "T"];
                         [CStr "chr1"; CInt 100; CStr "normal"; CStr "A"; CStr "T"]] |}).
  - vm_compute. reflexivity.
  - reflexivity.
  - cbn. right. right. left.
  - reflexivity.
Defined.
